(** * Signal fusion and data pipeline of the crypto RAG system

    A shallow embedding of [phase1_data_foundation/data_models.py] and
    [phase1_data_foundation/data_pipeline.py].

    Modelling conventions.
    - Python [float] values are idealised as exact rationals ([Q]); the
      literals [0.25], [0.3], [0.2] denote the decimals they spell.  Python
      [int] is [Z].
    - [round] is Python 3's round-half-to-even, [max]/[min] are the
      two-argument builtins, [sum] folds from [0] left to right, and [/] is
      true division, which raises [ZeroDivisionError] on a zero divisor.
    - Exceptions are explicit: fallible code returns [result].
    - A [datetime] is the number of microseconds it denotes; the difference
      of two datetimes is a [timedelta], normalised as Python does.
    - f-strings are kept symbolic ([fstring]): the template with the values
      it interpolates.
    - Objects mutated in place ([self], the pipeline's dictionaries) are
      passed through explicitly. *)

From Stdlib Require Import ZArith QArith Qround Qabs Qminmax Lqa Lia.
From stdpp Require Import gmap strings list fin_maps.

Open Scope Q_scope.

(** ** Python built-ins used by the source *)

Module Py.

Inductive exn : Type :=
| ValueError
| ZeroDivisionError
| Exception (msg : string).

Inductive result (A : Type) : Type :=
| Ok (a : A)
| Raise (e : exn).

Arguments Ok {A} a.
Arguments Raise {A} e.

Definition bind {A B : Type} (m : result A) (k : A -> result B) : result B :=
  match m with
  | Ok a => k a
  | Raise e => Raise e
  end.

(** [a < b] on floats. *)
Definition Qltb (a b : Q) : bool := negb (Qle_bool b a).

(** Truth value of a float: [bool(x)] is [x != 0.0]. *)
Definition truthy (x : Q) : bool := negb (Qeq_bool x 0).

(** Truth value of an [Optional[float]]: [None] and [0.0] are falsy. *)
Definition truthy_opt (o : option Q) : bool :=
  match o with
  | Some x => truthy x
  | None => false
  end.

(** [min(a, b)]: the first argument unless the second is smaller. *)
Definition min (a b : Q) : Q := if Qltb b a then b else a.

(** [max(a, b)]: the first argument unless the second is larger. *)
Definition max (a b : Q) : Q := if Qltb a b then b else a.

(** [round(x)] with one argument: nearest integer, ties to the even one. *)
Definition round (x : Q) : Z :=
  let f := Qfloor x in
  let r := x - inject_Z f in
  if Qltb r (1 # 2) then f
  else if Qltb (1 # 2) r then (f + 1)%Z
  else if Z.even f then f else (f + 1)%Z.

(** [sum(xs)] over floats and over ints. *)
Definition sum (xs : list Q) : Q := fold_left Qplus xs 0.
Definition sum_int (xs : list Z) : Z := fold_left Z.add xs 0%Z.

(** [len(xs)] as a number. *)
Definition len {A : Type} (xs : list A) : Q := inject_Z (Z.of_nat (length xs)).

(** [a / b]. *)
Definition truediv (a b : Q) : result Q :=
  if Qeq_bool b 0 then Raise ZeroDivisionError else Ok (a / b).

(** [s in xs] for a list of strings. *)
Definition str_in (s : string) (xs : list string) : bool :=
  existsb (String.eqb s) xs.

(** [s[:n]]. *)
Definition prefix (n : nat) (s : string) : string := String.substring 0 n s.

(** [needle in haystack] for strings: [needle] occurs as a substring. *)
Fixpoint contains (needle haystack : string) : bool :=
  if String.prefix needle haystack then true
  else match haystack with
       | EmptyString => false
       | String _ rest => contains needle rest
       end.

(** [sum(1 for word in words if word in text)]. *)
Definition count_in (words : list string) (text : string) : Z :=
  sum_int (map (fun _ => 1%Z) (filter (fun word => contains word text = true) words)).

(** [any(word in text for word in words)]. *)
Definition any_in (words : list string) (text : string) : bool :=
  existsb (fun word => contains word text) words.

End Py.

#[global] Instance result_ret : MRet Py.result := fun A a => Py.Ok a.
#[global] Instance result_bind : MBind Py.result := fun A B k m => Py.bind m k.

(** ** data_models.py *)

Inductive SignalStrength : Type :=
| STRONG_BUY
| BUY
| NEUTRAL
| SELL
| STRONG_SELL.

(** [.value] of the enum member. *)
Definition value (s : SignalStrength) : Z :=
  match s with
  | STRONG_BUY => 5
  | BUY => 4
  | NEUTRAL => 3
  | SELL => 2
  | STRONG_SELL => 1
  end.

(** [SignalStrength(n)]: lookup by value, [ValueError] when no member has it. *)
Definition SignalStrength_of_value (n : Z) : Py.result SignalStrength :=
  if (n =? 5)%Z then Py.Ok STRONG_BUY
  else if (n =? 4)%Z then Py.Ok BUY
  else if (n =? 3)%Z then Py.Ok NEUTRAL
  else if (n =? 2)%Z then Py.Ok SELL
  else if (n =? 1)%Z then Py.Ok STRONG_SELL
  else Py.Raise Py.ValueError.

Inductive DataQuality : Type :=
| VERIFIED
| RELIABLE
| UNCERTAIN
| UNRELIABLE.

(** The rendered annotations, each an f-string of the source with the
    values it interpolates. *)
Inductive fstring : Type :=
| High_volatility (change_24h : Q)
| Critical_news (headline_50 : string)
| Extreme_sentiment (fear_greed_label : string)
| Bullish_signal (confidence : Q)
| Bearish_signal (confidence : Q)
| Neutral_market_conditions
| Price_action (change_24h : Q)
| Market_sentiment (fear_greed_label : string)
| News_sentiment (articles : nat)
| RSI (rsi_14 : Q).

Module MarketData.

Record t : Type := mk {
  symbol : string;
  timestamp : Z;
  price : Q;
  volume_24h : Q;
  market_cap : Q;
  open : Q;
  high : Q;
  low : Q;
  close : Q;
  change_24h : Q;
  change_7d : option Q;
  circulating_supply : option Q;
  total_supply : option Q;
  source : string;
  quality : DataQuality;
  metadata : gmap string string
}.

Definition get_signal_strength (self : t) : SignalStrength :=
  if Py.Qltb 10 (change_24h self) then STRONG_BUY
  else if Py.Qltb 3 (change_24h self) then BUY
  else if Py.Qltb (change_24h self) (-10) then STRONG_SELL
  else if Py.Qltb (change_24h self) (-3) then SELL
  else NEUTRAL.

End MarketData.

Module NewsItem.

Record t : Type := mk {
  headline : string;
  source : string;
  published_at : Z;
  url : string;
  content : option string;
  author : option string;
  sentiment_score : Q;
  relevance_score : Q;
  mentioned_coins : list string;
  categories : list string;
  impact_level : string;
  quality : DataQuality;
  metadata : gmap string string
}.

Definition get_signal_from_sentiment (self : t) : SignalStrength :=
  if Py.Qltb 0.5 (sentiment_score self)
     && Py.str_in (impact_level self) ["high"; "critical"]%string
  then STRONG_BUY
  else if Py.Qltb 0.2 (sentiment_score self) then BUY
  else if Py.Qltb (sentiment_score self) (-0.5)
          && Py.str_in (impact_level self) ["high"; "critical"]%string
  then STRONG_SELL
  else if Py.Qltb (sentiment_score self) (-0.2) then SELL
  else NEUTRAL.

End NewsItem.

Module MarketSentiment.

Record t : Type := mk {
  timestamp : Z;
  fear_greed_index : Z;
  fear_greed_label : string;
  social_volume : option Z;
  social_sentiment : option Q;
  google_trends : option Z;
  reddit_mentions : option Z;
  twitter_mentions : option Z;
  source : string;
  quality : DataQuality;
  metadata : gmap string string
}.

Definition get_contrarian_signal (self : t) : SignalStrength :=
  if (fear_greed_index self <? 20)%Z then STRONG_BUY
  else if (80 <? fear_greed_index self)%Z then STRONG_SELL
  else if (fear_greed_index self <? 35)%Z then BUY
  else if (65 <? fear_greed_index self)%Z then SELL
  else NEUTRAL.

Definition get_market_mood (self : t) : string :=
  if (fear_greed_index self <? 20)%Z
  then "Extreme panic - potential buying opportunity"
  else if (fear_greed_index self <? 40)%Z
  then "Fear dominant - market cautious"
  else if (fear_greed_index self <? 60)%Z
  then "Neutral sentiment - market balanced"
  else if (fear_greed_index self <? 80)%Z
  then "Greed increasing - potential overheating"
  else "Extreme greed - high risk of correction".

End MarketSentiment.

Module TechnicalIndicators.

Record t : Type := mk {
  symbol : string;
  timestamp : Z;
  rsi_14 : option Q;
  macd : option Q;
  macd_signal : option Q;
  bollinger_upper : option Q;
  bollinger_middle : option Q;
  bollinger_lower : option Q;
  sma_50 : option Q;
  sma_200 : option Q;
  ema_12 : option Q;
  ema_26 : option Q;
  volume_sma_20 : option Q;
  atr_14 : option Q;
  support_level : option Q;
  resistance_level : option Q
}.

Definition get_rsi_signal (self : t) : SignalStrength :=
  match rsi_14 self with
  | Some rsi =>
      if negb (Py.truthy rsi) then NEUTRAL
      else if Py.Qltb rsi 30 then STRONG_BUY
      else if Py.Qltb rsi 40 then BUY
      else if Py.Qltb 70 rsi then STRONG_SELL
      else if Py.Qltb 60 rsi then SELL
      else NEUTRAL
  | None => NEUTRAL
  end.

Definition get_ma_signal (self : t) (current_price : Q) : SignalStrength :=
  match sma_50 self, sma_200 self with
  | Some s50, Some s200 =>
      if negb (Py.truthy s50) || negb (Py.truthy s200) then NEUTRAL
      else if Py.Qltb s200 s50 && Py.Qltb s50 current_price then STRONG_BUY
      else if Py.Qltb s50 s200 && Py.Qltb current_price s50 then STRONG_SELL
      else if Py.Qltb s50 current_price then BUY
      else if Py.Qltb current_price s50 then SELL
      else NEUTRAL
  | _, _ => NEUTRAL
  end.

End TechnicalIndicators.

Module CombinedSignal.

Record t : Type := mk {
  symbol : string;
  timestamp : Z;
  market_data : option MarketData.t;
  news_items : list NewsItem.t;
  sentiment : option MarketSentiment.t;
  technicals : option TechnicalIndicators.t;
  overall_signal : SignalStrength;
  confidence : Q;
  risk_level : string;
  price_signal : SignalStrength;
  news_signal : SignalStrength;
  sentiment_signal : SignalStrength;
  technical_signal : SignalStrength;
  reasoning : list fstring;
  warnings : list fstring;
  opportunities : list fstring
}.

(** The dataclass constructor as [collect_all_data] calls it: the six
    inputs given, every other field at its declared default. *)
Definition init (symbol : string) (timestamp : Z)
    (market_data : option MarketData.t) (news_items : list NewsItem.t)
    (sentiment : option MarketSentiment.t)
    (technicals : option TechnicalIndicators.t) : t :=
  mk symbol timestamp market_data news_items sentiment technicals
     NEUTRAL 0.0 "medium" NEUTRAL NEUTRAL NEUTRAL NEUTRAL [] [] [].

(** Attribute assignments [self.f = v]. *)
Definition set_overall_signal (v : SignalStrength) (self : t) : t :=
  mk (symbol self) (timestamp self) (market_data self) (news_items self)
     (sentiment self) (technicals self) v (confidence self) (risk_level self)
     (price_signal self) (news_signal self) (sentiment_signal self)
     (technical_signal self) (reasoning self) (warnings self)
     (opportunities self).

Definition set_confidence (v : Q) (self : t) : t :=
  mk (symbol self) (timestamp self) (market_data self) (news_items self)
     (sentiment self) (technicals self) (overall_signal self) v
     (risk_level self) (price_signal self) (news_signal self)
     (sentiment_signal self) (technical_signal self) (reasoning self)
     (warnings self) (opportunities self).

Definition set_risk_level (v : string) (self : t) : t :=
  mk (symbol self) (timestamp self) (market_data self) (news_items self)
     (sentiment self) (technicals self) (overall_signal self)
     (confidence self) v (price_signal self) (news_signal self)
     (sentiment_signal self) (technical_signal self) (reasoning self)
     (warnings self) (opportunities self).

Definition set_price_signal (v : SignalStrength) (self : t) : t :=
  mk (symbol self) (timestamp self) (market_data self) (news_items self)
     (sentiment self) (technicals self) (overall_signal self)
     (confidence self) (risk_level self) v (news_signal self)
     (sentiment_signal self) (technical_signal self) (reasoning self)
     (warnings self) (opportunities self).

Definition set_news_signal (v : SignalStrength) (self : t) : t :=
  mk (symbol self) (timestamp self) (market_data self) (news_items self)
     (sentiment self) (technicals self) (overall_signal self)
     (confidence self) (risk_level self) (price_signal self) v
     (sentiment_signal self) (technical_signal self) (reasoning self)
     (warnings self) (opportunities self).

Definition set_sentiment_signal (v : SignalStrength) (self : t) : t :=
  mk (symbol self) (timestamp self) (market_data self) (news_items self)
     (sentiment self) (technicals self) (overall_signal self)
     (confidence self) (risk_level self) (price_signal self)
     (news_signal self) v (technical_signal self) (reasoning self)
     (warnings self) (opportunities self).

Definition set_technical_signal (v : SignalStrength) (self : t) : t :=
  mk (symbol self) (timestamp self) (market_data self) (news_items self)
     (sentiment self) (technicals self) (overall_signal self)
     (confidence self) (risk_level self) (price_signal self)
     (news_signal self) (sentiment_signal self) v (reasoning self)
     (warnings self) (opportunities self).

Definition set_reasoning (v : list fstring) (self : t) : t :=
  mk (symbol self) (timestamp self) (market_data self) (news_items self)
     (sentiment self) (technicals self) (overall_signal self)
     (confidence self) (risk_level self) (price_signal self)
     (news_signal self) (sentiment_signal self) (technical_signal self) v
     (warnings self) (opportunities self).

(** [self.warnings.append(w)] and [self.opportunities.append(o)]. *)
Definition warnings_append (w : fstring) (self : t) : t :=
  mk (symbol self) (timestamp self) (market_data self) (news_items self)
     (sentiment self) (technicals self) (overall_signal self)
     (confidence self) (risk_level self) (price_signal self)
     (news_signal self) (sentiment_signal self) (technical_signal self)
     (reasoning self) (warnings self ++ [w]) (opportunities self).

Definition opportunities_append (o : fstring) (self : t) : t :=
  mk (symbol self) (timestamp self) (market_data self) (news_items self)
     (sentiment self) (technicals self) (overall_signal self)
     (confidence self) (risk_level self) (price_signal self)
     (news_signal self) (sentiment_signal self) (technical_signal self)
     (reasoning self) (warnings self) (opportunities self ++ [o]).

(** The locals of [calculate_combined_signal] that live across its
    blocks: [self] and the parallel lists [signals] and [weights]. *)
Definition frame : Type := (t * list Q * list Q)%type.

(** [# Market data signal] *)
Definition market_data_block (fr : frame) : frame :=
  let '(self, signals, weights) := fr in
  match market_data self with
  | Some md =>
      let self := set_price_signal (MarketData.get_signal_strength md) self in
      let signals := signals ++ [inject_Z (value (price_signal self))] in
      let weights := weights ++ [0.25] in
      let self :=
        if Py.Qltb 10 (Qabs (MarketData.change_24h md))
        then warnings_append (High_volatility (MarketData.change_24h md)) self
        else self in
      (self, signals, weights)
  | None => fr
  end.

(** [news_scores]: the signal values of [self.news_items[:5]]. *)
Definition news_scores (self : t) : list Z :=
  map (fun item => value (NewsItem.get_signal_from_sentiment item))
      (take 5 (news_items self)).

(** [critical_news]. *)
Definition critical_news (self : t) : list NewsItem.t :=
  filter (fun n => NewsItem.impact_level n = "critical"%string)
         (news_items self).

(** [# News sentiment signal] *)
Definition news_block (fr : frame) : Py.result frame :=
  let '(self, signals, weights) := fr in
  match news_items self with
  | [] => Py.Ok fr
  | _ :: _ =>
      let news_scores := news_scores self in
      match news_scores with
      | [] => Py.Ok fr
      | _ :: _ =>
          avg_news_signal ←
            Py.truediv (inject_Z (Py.sum_int news_scores)) (Py.len news_scores);
          news_signal ← SignalStrength_of_value (Py.round avg_news_signal);
          let self := set_news_signal news_signal self in
          let signals := signals ++ [avg_news_signal] in
          let weights := weights ++ [0.3] in
          let self :=
            match critical_news self with
            | n :: _ =>
                warnings_append
                  (Critical_news (Py.prefix 50 (NewsItem.headline n))) self
            | [] => self
            end in
          Py.Ok (self, signals, weights)
      end
  end.

(** [# Market sentiment signal] *)
Definition sentiment_block (fr : frame) : frame :=
  let '(self, signals, weights) := fr in
  match sentiment self with
  | Some ms =>
      let self :=
        set_sentiment_signal (MarketSentiment.get_contrarian_signal ms) self in
      let signals := signals ++ [inject_Z (value (sentiment_signal self))] in
      let weights := weights ++ [0.2] in
      let self :=
        if (MarketSentiment.fear_greed_index ms <? 20)%Z
           || (80 <? MarketSentiment.fear_greed_index ms)%Z
        then opportunities_append
               (Extreme_sentiment (MarketSentiment.fear_greed_label ms)) self
        else self in
      (self, signals, weights)
  | None => fr
  end.

(** [tech_signals] as the technical block builds it. *)
Definition tech_signals (self : t) (ti : TechnicalIndicators.t) : list Z :=
  let tech_signals := [] in
  let tech_signals :=
    if Py.truthy_opt (TechnicalIndicators.rsi_14 ti)
    then tech_signals ++ [value (TechnicalIndicators.get_rsi_signal ti)]
    else tech_signals in
  match market_data self with
  | Some md =>
      if Py.truthy_opt (TechnicalIndicators.sma_50 ti)
      then tech_signals
             ++ [value (TechnicalIndicators.get_ma_signal ti (MarketData.price md))]
      else tech_signals
  | None => tech_signals
  end.

(** [# Technical indicators signal] *)
Definition technical_block (fr : frame) : Py.result frame :=
  let '(self, signals, weights) := fr in
  match technicals self with
  | Some ti =>
      let tech_signals := tech_signals self ti in
      match tech_signals with
      | [] => Py.Ok fr
      | _ :: _ =>
          avg_tech_signal ←
            Py.truediv (inject_Z (Py.sum_int tech_signals)) (Py.len tech_signals);
          technical_signal ← SignalStrength_of_value (Py.round avg_tech_signal);
          let self := set_technical_signal technical_signal self in
          Py.Ok (self, signals ++ [avg_tech_signal], weights ++ [0.25])
      end
  | None => Py.Ok fr
  end.

(** The risk bucket chosen from [self.confidence]. *)
Definition risk_of_confidence (confidence : Q) : string :=
  if Py.Qltb confidence 0.3 then "extreme"
  else if Py.Qltb confidence 0.5 then "high"
  else if Py.Qltb confidence 0.7 then "medium"
  else "low".

(** [# Calculate weighted average], under its guard [if signals and weights]. *)
Definition weighted_average_block (fr : frame) : Py.result t :=
  let '(self, signals, weights) := fr in
  match signals, weights with
  | _ :: _, _ :: _ =>
      let weighted_sum :=
        Py.sum (map (fun '(s, w) => s * w) (zip signals weights)) in
      let total_weight := Py.sum weights in
      avg_signal ← Py.truediv weighted_sum total_weight;
      overall ← SignalStrength_of_value (Py.round avg_signal);
      let self := set_overall_signal overall self in
      signal_variance ←
        Py.truediv (Py.sum (map (fun s => (s - avg_signal) ^ 2) signals))
                   (Py.len signals);
      let self :=
        set_confidence (Py.max 0 (Py.min 1 (1 - signal_variance / 4))) self in
      Py.Ok (set_risk_level (risk_of_confidence (confidence self)) self)
  | _, _ => Py.Ok self
  end.

Definition _generate_reasoning (self : t) : t :=
  let reasoning :=
    match overall_signal self with
    | STRONG_BUY | BUY => [Bullish_signal (confidence self)]
    | STRONG_SELL | SELL => [Bearish_signal (confidence self)]
    | NEUTRAL => [Neutral_market_conditions]
    end in
  let reasoning :=
    match market_data self with
    | Some md => reasoning ++ [Price_action (MarketData.change_24h md)]
    | None => reasoning
    end in
  let reasoning :=
    match sentiment self with
    | Some ms =>
        reasoning ++ [Market_sentiment (MarketSentiment.fear_greed_label ms)]
    | None => reasoning
    end in
  let reasoning :=
    match news_items self with
    | _ :: _ => reasoning ++ [News_sentiment (length (news_items self))]
    | [] => reasoning
    end in
  let reasoning :=
    match technicals self with
    | Some ti =>
        match TechnicalIndicators.rsi_14 ti with
        | Some rsi =>
            if Py.truthy rsi then reasoning ++ [RSI rsi] else reasoning
        | None => reasoning
        end
    | None => reasoning
    end in
  set_reasoning reasoning self.

(** The four component blocks in source order, from empty [signals] and
    [weights]. *)
Definition component_blocks (self : t) : Py.result frame :=
  fr ← news_block (market_data_block (self, [], []));
  technical_block (sentiment_block fr).

Definition calculate_combined_signal (self : t) : Py.result t :=
  fr ← component_blocks self;
  self ← weighted_average_block fr;
  Py.Ok (_generate_reasoning self).

End CombinedSignal.

(** ** data_pipeline.py *)

Module CryptoDataPipeline.

(** One entry of [self.rate_limits]. *)
Record RateLimit : Type := mkRateLimit {
  calls : Z;
  max : Z;
  window : Z
}.

(** The keys of [self.cache] that the pipeline reads and writes.  (The
    constructor also creates ['last_update'], which stays empty.) *)
Inductive Category : Type :=
| Market_data
| News
| Sentiment.

(** What is stored under a category. *)
Definition data_of (category : Category) : Type :=
  match category with
  | Market_data => MarketData.t
  | News => list NewsItem.t
  | Sentiment => MarketSentiment.t
  end.

(** The dict [{'data': ..., 'timestamp': ...}] kept for a key. *)
Record Entry (A : Type) : Type := mkEntry {
  data : A;
  timestamp : Z
}.

Arguments mkEntry {A} data timestamp.
Arguments data {A} _.
Arguments timestamp {A} _.

Record Cache : Type := mkCache {
  cache_market_data : gmap string (Entry MarketData.t);
  cache_news : gmap string (Entry (list NewsItem.t));
  cache_sentiment : gmap string (Entry MarketSentiment.t)
}.

(** [cache[category]]. *)
Definition sub_cache (category : Category) (cache : Cache)
    : gmap string (Entry (data_of category)) :=
  match category with
  | Market_data => cache_market_data cache
  | News => cache_news cache
  | Sentiment => cache_sentiment cache
  end.

(** [cache[category] = d]. *)
Definition set_sub_cache (category : Category)
    : gmap string (Entry (data_of category)) -> Cache -> Cache :=
  match category with
  | Market_data => fun d cache =>
      mkCache d (cache_news cache) (cache_sentiment cache)
  | News => fun d cache =>
      mkCache (cache_market_data cache) d (cache_sentiment cache)
  | Sentiment => fun d cache =>
      mkCache (cache_market_data cache) (cache_news cache) d
  end.

(** The mutable attributes of the pipeline object.  The base URLs and the
    thread pool play no part in what is modelled. *)
Record t : Type := mk {
  polygon_key : option string;
  newsapi_key : option string;
  rate_limits : gmap string RateLimit;
  cache : Cache
}.

Definition set_rate_limits (v : gmap string RateLimit) (self : t) : t :=
  mk (polygon_key self) (newsapi_key self) v (cache self).

Definition set_cache (v : Cache) (self : t) : t :=
  mk (polygon_key self) (newsapi_key self) (rate_limits self) v.

(** [__init__]. *)
Definition init (polygon_api_key newsapi_key : option string) : t :=
  mk polygon_api_key newsapi_key
     (<["polygon"%string := mkRateLimit 0 5 60]>
      (<["coingecko"%string := mkRateLimit 0 10 60]>
       (<["newsapi"%string := mkRateLimit 0 100 86400]>
        (<["alternative"%string := mkRateLimit 0 30 60]> ∅))))
     (mkCache ∅ ∅ ∅).

(** What the outside world answers while one collection call runs: the
    clock, and for each upstream request the record the adapter builds from
    the response.  [None] stands for every way an adapter comes back empty
    handed (status other than 200, empty payload, exception caught by the
    adapter). *)
Inductive news_response : Type :=
| News_fetched (news_items : list NewsItem.t)
  (* the request block ended without an exception, with these items
     appended (none when the status is not 200 or [Data] is empty) *)
| News_failed (news_items : list NewsItem.t).
  (* an exception was caught after these items had been appended *)

Record World : Type := mkWorld {
  now : Z;
  polygon : string -> option MarketData.t;
  coingecko : string -> option MarketData.t;
  cryptocompare : string -> news_response;
  alternative : option MarketSentiment.t
}.

(** [timedelta.seconds] of the difference [delta] (in microseconds): the
    seconds field of the normalised (days, seconds, microseconds) triple. *)
Definition seconds (delta : Z) : Z :=
  ((delta `mod` 86400000000) `div` 1000000)%Z.

Definition _check_rate_limit (service : string) (self : t) : bool :=
  match rate_limits self !! service with
  | Some limit => (calls limit <? max limit)%Z
  | None => true
  end.

Definition _increment_rate_limit (service : string) (self : t) : t :=
  match rate_limits self !! service with
  | Some limit =>
      set_rate_limits
        (<[service := mkRateLimit (calls limit + 1) (max limit) (window limit)]>
           (rate_limits self))
        self
  | None => self
  end.

Definition _update_cache (category : Category) (key : string)
    (data : data_of category) (now : Z) (self : t) : t :=
  set_cache
    (set_sub_cache category
       (<[key := mkEntry data now]> (sub_cache category (cache self)))
       (cache self))
    self.


(** The cache read that the three collectors spell out in place:
    [if cache_key in self.cache[category]: cached = ...;
     if (datetime.now() - cached['timestamp']).seconds < ttl:
       return cached['data']]. *)
Definition cached_if_fresh (category : Category) (cache_key : string)
    (ttl : Z) (now : Z) (self : t) : option (data_of category) :=
  match sub_cache category (cache self) !! cache_key with
  | Some cached =>
      if (seconds (now - timestamp cached) <? ttl)%Z
      then Some (data cached)
      else None
  | None => None
  end.

(** Truth value of an [Optional[str]]. *)
Definition key_configured (key : option string) : bool :=
  match key with
  | Some k => negb (String.eqb k "")
  | None => false
  end.

Definition _fetch_polygon_data (w : World) (symbol : string) (self : t)
    : t * option MarketData.t :=
  match polygon w symbol with
  | Some md =>
      let self := _update_cache Market_data ("market_" +:+ symbol) md (now w) self in
      let self := _increment_rate_limit "polygon" self in
      (self, Some md)
  | None => (self, None)
  end.

Definition _fetch_coingecko_data (w : World) (symbol : string) (self : t)
    : t * option MarketData.t :=
  match coingecko w symbol with
  | Some md =>
      let self := _update_cache Market_data ("market_" +:+ symbol) md (now w) self in
      let self := _increment_rate_limit "coingecko" self in
      (self, Some md)
  | None => (self, None)
  end.

Definition _collect_market_data (w : World) (symbol : string) (self : t)
    : t * option MarketData.t :=
  (* Try Polygon first *)
  let '(self, data) :=
    if key_configured (polygon_key self) && _check_rate_limit "polygon" self
    then _fetch_polygon_data w symbol self
    else (self, None) in
  match data with
  | Some md => (self, Some md)
  | None =>
      (* Fallback to CoinGecko *)
      let '(self, data) :=
        if _check_rate_limit "coingecko" self
        then _fetch_coingecko_data w symbol self
        else (self, None) in
      match data with
      | Some md => (self, Some md)
      | None =>
          (* Check cache *)
          (self, cached_if_fresh Market_data ("market_" +:+ symbol) 300 (now w) self)
      end
  end.

Definition _collect_news (w : World) (symbol : string) (self : t)
    : t * list NewsItem.t :=
  let cache_key := "news_" +:+ symbol in
  (* Check cache first *)
  match cached_if_fresh News cache_key 1800 (now w) self with
  | Some cached => (self, cached)
  | None =>
      match cryptocompare w symbol with
      | News_fetched news_items =>
          (_update_cache News cache_key news_items (now w) self, news_items)
      | News_failed news_items => (self, news_items)
      end
  end.

Definition _collect_sentiment (w : World) (self : t)
    : t * option MarketSentiment.t :=
  let cache_key := "sentiment_global"%string in
  (* Check cache *)
  match cached_if_fresh Sentiment cache_key 3600 (now w) self with
  | Some cached => (self, Some cached)
  | None =>
      match alternative w with
      | Some ms =>
          let self := _update_cache Sentiment cache_key ms (now w) self in
          let self := _increment_rate_limit "alternative" self in
          (self, Some ms)
      | None => (self, None)
      end
  end.

(** The mock record [_calculate_technicals] returns. *)
Definition _calculate_technicals (w : World) (symbol : string)
    : option TechnicalIndicators.t :=
  Some (TechnicalIndicators.mk symbol (now w) (Some 50.0) None None None None
          None (Some 0.0) (Some 0.0) None None None None None None).

(** The body of the [try] in [collect_all_data] for one symbol.  The four
    tasks handed to [asyncio.gather] work on disjoint cache categories and
    rate-limit entries, so they are run here one after the other; each
    catches its own exceptions, so no result of the gather is an
    exception. *)
Definition process_symbol (world : string -> World) (symbol : string)
    (self : t) : t * Py.result CombinedSignal.t :=
  let w := world symbol in
  let '(self, market_data) := _collect_market_data w symbol self in
  let '(self, news_items) := _collect_news w symbol self in
  let '(self, sentiment) := _collect_sentiment w self in
  let technicals := _calculate_technicals w symbol in
  let combined :=
    CombinedSignal.init symbol (now w) market_data news_items sentiment
      technicals in
  (self, CombinedSignal.calculate_combined_signal combined).

(** The loop of [collect_all_data] around a [try] body [body]: a result is
    stored under its symbol, an exception is logged and the loop goes on
    with the next symbol. *)
Fixpoint collect_loop (body : string -> t -> t * Py.result CombinedSignal.t)
    (symbols : list string) (self : t)
    (combined_signals : gmap string CombinedSignal.t)
    : t * gmap string CombinedSignal.t :=
  match symbols with
  | [] => (self, combined_signals)
  | symbol :: symbols =>
      let '(self, outcome) := body symbol self in
      match outcome with
      | Py.Ok combined =>
          collect_loop body symbols self (<[symbol := combined]> combined_signals)
      | Py.Raise e => collect_loop body symbols self combined_signals
      end
  end.

Definition collect_all_data (world : string -> World) (symbols : list string)
    (self : t) : t * gmap string CombinedSignal.t :=
  collect_loop (process_symbol world) symbols self ∅.

(** *** The keyword scorers

    [str.lower] is taken as a parameter [lower]; the keyword tables are the
    source's. *)

Definition positive_words : list string :=
  ["bullish"; "surge"; "rally"; "gain"; "rise"; "up"; "high"; "positive";
   "growth"; "increase"; "soar"; "moon"; "breakthrough"]%string.

Definition negative_words : list string :=
  ["bearish"; "crash"; "fall"; "drop"; "down"; "low"; "negative"; "decline";
   "decrease"; "plunge"; "dump"; "correction"; "fear"]%string.

Definition high_impact_words : list string :=
  ["regulation"; "sec"; "government"; "ban"; "legal"; "hack"; "bankruptcy";
   "collapse"; "etf"; "institutional"; "billion"]%string.

Definition medium_impact_words : list string :=
  ["million"; "partnership"; "upgrade"]%string.

Definition _analyze_sentiment (lower : string -> string) (text : string) : Q :=
  let text_lower := lower text in
  let pos_count := Py.count_in positive_words text_lower in
  let neg_count := Py.count_in negative_words text_lower in
  if (pos_count + neg_count =? 0)%Z then 0.0
  else inject_Z (pos_count - neg_count) / inject_Z (pos_count + neg_count).

Definition _assess_impact (lower : string -> string) (headline : string)
    : string :=
  let headline_lower := lower headline in
  if Py.any_in high_impact_words headline_lower then "high"
  else if Py.any_in medium_impact_words headline_lower then "medium"
  else "low".

(** *** The records the market-data adapters build

    A JSON object with numeric fields is a map from field names to numbers;
    [obj['k']] on a missing key raises [KeyError], which the adapter's
    [except] turns into [None], as it does the [ZeroDivisionError] of a zero
    open. *)




(** *** [health_check] *)

Record Health : Type := mkHealth {
  health_sources : gmap string string;
  health_cache : nat * nat * nat;
  health_rate_limits : gmap string RateLimit
}.

(** ['healthy' if test_data else 'unhealthy']. *)
Definition health_of {A : Type} (test_data : option A) : string :=
  match test_data with
  | Some _ => "healthy"
  | None => "unhealthy"
  end.

(** The three probes in the order of the loop, then the cache sizes and
    the rate-limit table (the rendered ['timestamp'] is left out).  The
    probes catch their own exceptions, so the ['error'] status of the bare
    [except] is never set. *)
Definition health_check (w : World) (self : t) : t * Health :=
  let sources : gmap string string := ∅ in
  let '(self, sources) :=
    if key_configured (polygon_key self)
    then let '(self, test_data) := _fetch_polygon_data w "BTC" self in
         (self, <["polygon"%string := health_of test_data]> sources)
    else (self, sources) in
  let '(self, test_data) := _fetch_coingecko_data w "BTC" self in
  let sources := <["coingecko"%string := health_of test_data]> sources in
  let '(self, test_data) := _collect_sentiment w self in
  let sources := <["alternative"%string := health_of test_data]> sources in
  (self,
   mkHealth sources
     (size (cache_market_data (cache self)), size (cache_news (cache self)),
      size (cache_sentiment (cache self)))
     (rate_limits self)).

End CryptoDataPipeline.

(** ** The fusion rule as the specification words it

    Section 4.5 of the specification: each present component has a
    pre-rounding ordinal contribution and a fixed weight; the consensus is
    the rounded weighted mean of the present contributions, the confidence
    is one minus a quarter of their population variance around that mean,
    clamped to the unit interval.  These definitions are compared with
    [CombinedSignal.calculate_combined_signal] below. *)

Module Fusion.

Inductive Component : Type :=
| Price
| News
| Sentiment
| Technical.

Definition weight (c : Component) : Q :=
  match c with
  | Price => 0.25
  | News => 0.3
  | Sentiment => 0.2
  | Technical => 0.25
  end.

Definition total (xs : list Q) : Q := foldr Qplus 0 xs.

(** Arithmetic mean of a list of ordinals. *)
Definition mean_ordinal (xs : list Z) : Q :=
  inject_Z (foldr Z.add 0%Z xs) / inject_Z (Z.of_nat (length xs)).

(** The contribution of a component, [None] when it is not present: no
    market data, no news item, no sentiment record, no computable
    technical sub-signal. *)
Definition contribution (self : CombinedSignal.t) (c : Component) : option Q :=
  match c with
  | Price =>
      (fun md => inject_Z (value (MarketData.get_signal_strength md)))
        <$> CombinedSignal.market_data self
  | News =>
      match CombinedSignal.news_items self with
      | [] => None
      | _ :: _ => Some (mean_ordinal (CombinedSignal.news_scores self))
      end
  | Sentiment =>
      (fun ms => inject_Z (value (MarketSentiment.get_contrarian_signal ms)))
        <$> CombinedSignal.sentiment self
  | Technical =>
      match CombinedSignal.technicals self with
      | Some ti =>
          match CombinedSignal.tech_signals self ti with
          | [] => None
          | _ :: _ => Some (mean_ordinal (CombinedSignal.tech_signals self ti))
          end
      | None => None
      end
  end.

(** The present components with their contributions, in the fixed order
    price, news, sentiment, technical. *)
Definition present (self : CombinedSignal.t) : list (Component * Q) :=
  omap (fun c => pair c <$> contribution self c)
       [Price; News; Sentiment; Technical].

Definition weighted_mean (p : list (Component * Q)) : Q :=
  total (map (fun co => weight (fst co) * snd co) p)
  / total (map (fun co => weight (fst co)) p).

Definition population_variance (p : list (Component * Q)) (mean : Q) : Q :=
  total (map (fun co => (snd co - mean) ^ 2) p)
  / inject_Z (Z.of_nat (length p)).

Definition confidence (p : list (Component * Q)) : Q :=
  Qmax 0 (Qmin 1 (1 - population_variance p (weighted_mean p) / 4)).

End Fusion.

(** ** Vocabulary of the statements *)

Section fusion_vocabulary.

Import CombinedSignal.

(** The six inputs of a [CombinedSignal] agree. *)
Definition same_inputs (a b : CombinedSignal.t) : Prop :=
  symbol a = symbol b /\ timestamp a = timestamp b
  /\ market_data a = market_data b /\ news_items a = news_items b
  /\ sentiment a = sentiment b /\ technicals a = technicals b.

(** The three aggregated scores agree. *)
Definition same_scores (a b : CombinedSignal.t) : Prop :=
  overall_signal a = overall_signal b /\ confidence a = confidence b
  /\ risk_level a = risk_level b.

(** What a block appends to [signals] and [weights] for component [c]. *)
Definition pushed_signals (self : CombinedSignal.t) (c : Fusion.Component)
    (signals : list Q) : list Q :=
  signals ++ option_list (Fusion.contribution self c).

Definition pushed_weights (self : CombinedSignal.t) (c : Fusion.Component)
    (weights : list Q) : list Q :=
  weights ++ ((fun _ => Fusion.weight c) <$> option_list (Fusion.contribution self c)).

(** The component signal fields, by component. *)
Definition component_signal (c : Fusion.Component) (self : CombinedSignal.t)
    : SignalStrength :=
  match c with
  | Fusion.Price => price_signal self
  | Fusion.News => news_signal self
  | Fusion.Sentiment => sentiment_signal self
  | Fusion.Technical => technical_signal self
  end.

(** A component signal after the run: the rounded contribution converted
    to the enum when the component is present, its old value otherwise. *)
Definition rounds_to (o : option Q) (before after : SignalStrength) : Prop :=
  match o with
  | Some x => SignalStrength_of_value (Py.round x) = Py.Ok after
  | None => after = before
  end.

(** The block of component [c] sets the signal of [c] and no other. *)
Definition block_sets (c : Fusion.Component) (self self' : CombinedSignal.t)
    : Prop :=
  rounds_to (Fusion.contribution self c)
            (component_signal c self) (component_signal c self')
  /\ forall c', c' <> c -> component_signal c' self' = component_signal c' self.

(** Every contribution of the list is an ordinal between 1 and 5. *)
Definition ordinal_valued (p : list (Fusion.Component * Q)) : Prop :=
  Forall (fun co => 1 <= snd co <= 5) p.

(** The warning the market-data block appends. *)
Definition volatility_warning (self : CombinedSignal.t) : list fstring :=
  match market_data self with
  | Some md =>
      if Py.Qltb 10 (Qabs (MarketData.change_24h md))
      then [High_volatility (MarketData.change_24h md)]
      else []
  | None => []
  end.

(** The warning the news block appends. *)
Definition critical_news_warning (self : CombinedSignal.t) : list fstring :=
  match critical_news self with
  | n :: _ => [Critical_news (Py.prefix 50 (NewsItem.headline n))]
  | [] => []
  end.

(** The opportunity the sentiment block appends. *)
Definition sentiment_opportunity (self : CombinedSignal.t) : list fstring :=
  match sentiment self with
  | Some ms =>
      if (MarketSentiment.fear_greed_index ms <? 20)%Z
         || (80 <? MarketSentiment.fear_greed_index ms)%Z
      then [Extreme_sentiment (MarketSentiment.fear_greed_label ms)]
      else []
  | None => []
  end.

End fusion_vocabulary.

Section pipeline_vocabulary.

Import CryptoDataPipeline.




(** The items a news response carries. *)
Definition response_items (r : news_response) : list NewsItem.t :=
  match r with
  | News_fetched news_items => news_items
  | News_failed news_items => news_items
  end.

(** The counter of [service], when it has an entry, is within its quota. *)
Definition within_quota (service : string) (self : CryptoDataPipeline.t) : Prop :=
  forall limit, rate_limits self !! service = Some limit ->
                (calls limit <= max limit)%Z.

End pipeline_vocabulary.

(** ** Concrete inputs *)

Module Examples.

Import CombinedSignal.

(** Market data for BTC at price 100 with the given 24h change. *)
Definition btc_market (change_24h : Q) : MarketData.t :=
  MarketData.mk "BTC" 0 100 0 0 100 100 100 100 change_24h None None None
    "coingecko" RELIABLE ∅.

(** A headline with the given sentiment score and impact level. *)
Definition headline (sentiment_score : Q) (impact_level : string) : NewsItem.t :=
  NewsItem.mk "Bitcoin ETF approved" "wire" 0 "" None None sentiment_score 0.8
    ["BTC"%string] [] impact_level RELIABLE ∅.

Definition fear_greed (index : Z) (label : string) : MarketSentiment.t :=
  MarketSentiment.mk 0 index label None None None None None "alternative.me"
    RELIABLE ∅.

(** Technical indicators with only the RSI and the two moving averages
    possibly given. *)
Definition indicators (rsi_14 sma_50 sma_200 : option Q) : TechnicalIndicators.t :=
  TechnicalIndicators.mk "BTC" 0 rsi_14 None None None None None sma_50 sma_200
    None None None None None None.

(** No component at all. *)
Definition nothing : CombinedSignal.t := init "BTC" 0 None [] None None.

(** Market data up 15%, and a technical record without any indicator. *)
Definition rally_blank_technicals : CombinedSignal.t :=
  init "BTC" 0 (Some (btc_market 15)) [] None (Some (indicators None None None)).

(** All four components at STRONG_BUY. *)
Definition unanimous_strong_buy : CombinedSignal.t :=
  init "BTC" 0 (Some (btc_market 15)) [headline 0.9 "high"]
    (Some (fear_greed 10 "Extreme Fear"))
    (Some (indicators (Some 25) (Some 90) (Some 80))).

(** No market data; news at BUY, sentiment at SELL, RSI at STRONG_BUY. *)
Definition no_market_data : CombinedSignal.t :=
  init "BTC" 0 None [headline 0.3 "low"] (Some (fear_greed 70 "Greed"))
    (Some (indicators (Some 25) None None)).

(** Five headlines, all rated BUY, and the same five followed by a
    critical, strongly negative sixth. *)
Definition five_headlines : list NewsItem.t := replicate 5 (headline 0.3 "low").

Definition news_only : CombinedSignal.t :=
  init "BTC" 0 None five_headlines None None.

Definition news_with_sixth : CombinedSignal.t :=
  init "BTC" 0 None (five_headlines ++ [headline (-0.9) "critical"]) None None.

(** [str.lower] on ASCII text. *)
Definition ascii_lower_char (c : Ascii.ascii) : Ascii.ascii :=
  let n := Ascii.nat_of_ascii c in
  if (65 <=? n)%nat && (n <=? 90)%nat then Ascii.ascii_of_nat (n + 32) else c.

Fixpoint ascii_lower (s : string) : string :=
  match s with
  | EmptyString => EmptyString
  | String c rest => String (ascii_lower_char c) (ascii_lower rest)
  end.

(** One headline whose impact level is the classifier's answer. *)
Definition classified_news : CombinedSignal.t :=
  init "BTC" 0 None [headline 0.9 "high"] None None.

End Examples.

Module PipelineExamples.

Import CryptoDataPipeline.

Definition one_second : Z := 1000000.
Definition one_day : Z := 86400 * one_second.

(** A pipeline as [__init__] leaves it, with a Polygon key. *)
Definition fresh : CryptoDataPipeline.t := init (Some "key"%string) None.

Definition btc_quote : MarketData.t :=
  MarketData.mk "BTC" 0 100 0 0 100 100 100 100 1 None None None "coingecko"
    RELIABLE ∅.

Definition story (headline : string) : NewsItem.t :=
  NewsItem.mk headline "wire" 0 "" None None 0 0.5 ["BTC"%string] [] "low"
    RELIABLE ∅.

(** A world at time [now] where every market-data provider fails, the news
    feed answers with one new story and there is no sentiment index. *)
Definition providers_down (now : Z) : World :=
  mkWorld now (fun _ => None) (fun _ => None)
    (fun _ => News_fetched [story "new"]) None.

(** The fresh pipeline after a quote for BTC was cached at time 0. *)
Definition quote_cached_at_0 : CryptoDataPipeline.t :=
  _update_cache Market_data "market_BTC" btc_quote 0 fresh.

(** One day and ten seconds after time 0. *)
Definition a_day_later : Z := one_day + 10 * one_second.

(** The fresh pipeline after one old story for BTC was cached at time 0,
    and a world, a minute later, whose news feed has a new story. *)
Definition old_story_cached_at_0 : CryptoDataPipeline.t :=
  _update_cache News "news_BTC" [story "old"] 0 fresh.

Definition news_flowing : World :=
  mkWorld (60 * one_second) (fun _ => None) (fun _ => Some btc_quote)
    (fun _ => News_fetched [story "new"]) None.

(** A [try] body that raises on the symbol BAD and succeeds on every
    other one. *)
Definition flaky_body (symbol : string) (self : CryptoDataPipeline.t)
    : CryptoDataPipeline.t * Py.result CombinedSignal.t :=
  if String.eqb symbol "BAD"
  then (self, Py.Raise (Py.Exception "unexpected fault"))
  else (self, Py.Ok (CombinedSignal.init symbol 0 None [] None None)).

(** The fresh pipeline with the quota of one provider used up. *)
Definition exhausted (service : string) : CryptoDataPipeline.t :=
  set_rate_limits
    (alter (fun limit => mkRateLimit (max limit) (max limit) (window limit))
       service (rate_limits fresh))
    fresh.

(** A world, at the given time, where only the sentiment index answers. *)
Definition fear_reported (now : Z) : World :=
  mkWorld now (fun _ => None) (fun _ => None) (fun _ => News_fetched [])
    (Some (MarketSentiment.mk now 10 "Extreme Fear" None None None None None
             "alternative.me" RELIABLE ∅)).

End PipelineExamples.

(** ** Proof steps used throughout *)

Ltac run_result := unfold mbind, result_bind, Py.bind.

Ltac frame_done :=
  unfold same_inputs, same_scores; simpl; repeat split; reflexivity.

Ltac others_kept :=
  let c := fresh "c" in
  let Hc := fresh "Hc" in
  intros c Hc; destruct c; try reflexivity; contradiction.

(** * Facts about the Python built-ins *)

Section py_facts.

Lemma Qltb_lt (a b : Q) : Py.Qltb a b = true <-> a < b.
Proof.
  unfold Py.Qltb. rewrite negb_true_iff, <- not_true_iff_false, Qle_bool_iff.
  split; [apply Qnot_le_lt | apply Qlt_not_le].
Qed.

Lemma Qltb_ge (a b : Q) : Py.Qltb a b = false <-> b <= a.
Proof.
  unfold Py.Qltb. rewrite negb_false_iff. apply Qle_bool_iff.
Qed.

#[local] Instance Qltb_proper : Proper (Qeq ==> Qeq ==> eq) Py.Qltb.
Proof.
  intros a a' Ha b b' Hb.
  destruct (Py.Qltb a b) eqn:E, (Py.Qltb a' b') eqn:E'; try reflexivity.
  - apply Qltb_lt in E. apply Qltb_ge in E'. rewrite Ha, Hb in E. lra.
  - apply Qltb_ge in E. apply Qltb_lt in E'. rewrite Ha, Hb in E. lra.
Qed.

#[local] Instance min_proper : Proper (Qeq ==> Qeq ==> Qeq) Py.min.
Proof.
  intros a a' Ha b b' Hb. unfold Py.min. rewrite Ha, Hb.
  destruct (Py.Qltb b' a'); assumption.
Qed.

#[local] Instance max_proper : Proper (Qeq ==> Qeq ==> Qeq) Py.max.
Proof.
  intros a a' Ha b b' Hb. unfold Py.max. rewrite Ha, Hb.
  destruct (Py.Qltb a' b'); assumption.
Qed.

Lemma clamp_bounds (x : Q) : 0 <= Py.max 0 (Py.min 1 x) <= 1.
Proof.
  unfold Py.max, Py.min.
  destruct (Py.Qltb x 1) eqn:E1.
  - apply Qltb_lt in E1.
    destruct (Py.Qltb 0 x) eqn:E0; [apply Qltb_lt in E0 | ]; lra.
  - destruct (Py.Qltb 0 1) eqn:E0; lra.
Qed.

#[local] Instance round_proper : Proper (Qeq ==> eq) Py.round.
Proof.
  intros x y Hxy. unfold Py.round.
  rewrite (Qfloor_comp _ _ Hxy).
  assert (H : x - inject_Z (Qfloor y) == y - inject_Z (Qfloor y)) by (rewrite Hxy; reflexivity).
  rewrite !(Qltb_proper _ _ H _ _ (Qeq_refl (1 # 2))).
  rewrite !(Qltb_proper _ _ (Qeq_refl (1 # 2)) _ _ H). reflexivity.
Qed.

Lemma round_bounds (lo hi : Z) (x : Q) :
  inject_Z lo <= x <= inject_Z hi -> (lo <= Py.round x <= hi)%Z.
Proof.
  intros [Hlo Hhi].
  pose proof (Qfloor_resp_le _ _ Hlo) as Fl. rewrite Qfloor_Z in Fl.
  pose proof (Qfloor_resp_le _ _ Hhi) as Fh. rewrite Qfloor_Z in Fh.
  pose proof (Qfloor_le x) as Fx.
  unfold Py.round.
  destruct (Py.Qltb (x - inject_Z (Qfloor x)) (1 # 2)) eqn:E; [lia|].
  apply Qltb_ge in E.
  assert (Qfloor x < hi)%Z.
  { destruct (Z.eq_dec (Qfloor x) hi) as [Heq|]; [|lia].
    rewrite Heq in E. lra. }
  destruct (Py.Qltb (1 # 2) (x - inject_Z (Qfloor x))); [lia|].
  destruct (Z.even (Qfloor x)); lia.
Qed.

Lemma round_inject_Z (n : Z) : Py.round (inject_Z n) = n.
Proof.
  unfold Py.round. rewrite Qfloor_Z.
  assert (H : Py.Qltb (inject_Z n - inject_Z n) (1 # 2) = true) by (apply Qltb_lt; lra).
  rewrite H. reflexivity.
Qed.

Lemma fold_left_Qplus (xs : list Q) (a : Q) :
  fold_left Qplus xs a == a + Py.sum xs.
Proof.
  unfold Py.sum. revert a.
  induction xs as [|x xs IH]; intros a; simpl.
  - lra.
  - rewrite (IH (a + x)), (IH (0 + x)). lra.
Qed.

Lemma sum_cons (x : Q) (xs : list Q) : Py.sum (x :: xs) == x + Py.sum xs.
Proof. unfold Py.sum at 1. simpl. rewrite fold_left_Qplus. lra. Qed.

Lemma fold_left_Zadd (xs : list Z) (a : Z) :
  fold_left Z.add xs a = (a + Py.sum_int xs)%Z.
Proof.
  unfold Py.sum_int. revert a.
  induction xs as [|x xs IH]; intros a; simpl.
  - lia.
  - rewrite (IH (a + x)%Z), (IH (0 + x)%Z). lia.
Qed.

Lemma sum_int_cons (x : Z) (xs : list Z) :
  Py.sum_int (x :: xs) = (x + Py.sum_int xs)%Z.
Proof. unfold Py.sum_int at 1. simpl fold_left. rewrite fold_left_Zadd. lia. Qed.

Lemma truediv_ok (a b : Q) : ~ b == 0 -> Py.truediv a b = Py.Ok (a / b).
Proof.
  intros Hb. unfold Py.truediv.
  destruct (Qeq_bool b 0) eqn:E; [|reflexivity].
  apply Qeq_bool_iff in E. contradiction.
Qed.

End py_facts.

#[global] Existing Instances Qltb_proper min_proper max_proper round_proper.

(** * Ordinals and their means *)

Section ordinals.

Lemma value_bounds (s : SignalStrength) : (1 <= value s <= 5)%Z.
Proof. destruct s; simpl; lia. Qed.

Lemma SignalStrength_of_value_ok (n : Z) :
  (1 <= n <= 5)%Z ->
  exists s, SignalStrength_of_value n = Py.Ok s /\ value s = n.
Proof.
  intros Hn.
  assert (n = 1 \/ n = 2 \/ n = 3 \/ n = 4 \/ n = 5)%Z as Hcases by lia.
  destruct Hcases as [->|[->|[->|[->| ->]]]]; eexists; split; reflexivity.
Qed.

Lemma SignalStrength_of_value_inv (n : Z) (s : SignalStrength) :
  SignalStrength_of_value n = Py.Ok s -> value s = n.
Proof.
  unfold SignalStrength_of_value.
  repeat match goal with
         | |- context [(n =? ?k)%Z] =>
             destruct (Z.eqb_spec n k) as [->|_];
             [intros [= <-]; reflexivity|]
         end.
  intros [=].
Qed.

Lemma SignalStrength_of_value_value (s : SignalStrength) :
  SignalStrength_of_value (value s) = Py.Ok s.
Proof. destruct s; reflexivity. Qed.

Lemma value_inj (a b : SignalStrength) : value a = value b -> a = b.
Proof. destruct a, b; simpl; intros H; try reflexivity; discriminate. Qed.

Lemma sum_int_foldr (xs : list Z) : Py.sum_int xs = foldr Z.add 0%Z xs.
Proof.
  induction xs as [|x xs IH]; [reflexivity|].
  rewrite sum_int_cons, IH. reflexivity.
Qed.

Lemma sum_int_bounds (xs : list Z) :
  Forall (fun z => 1 <= z <= 5)%Z xs ->
  (Z.of_nat (length xs) <= Py.sum_int xs <= 5 * Z.of_nat (length xs))%Z.
Proof.
  induction 1 as [|x xs Hx _ IH].
  - unfold Py.sum_int. simpl. lia.
  - rewrite sum_int_cons. simpl length. lia.
Qed.

Lemma len_pos {A : Type} (xs : list A) : xs <> [] -> 0 < Py.len xs.
Proof.
  intros Hne. unfold Py.len. destruct xs as [|x xs]; [contradiction|].
  change 0 with (inject_Z 0). rewrite <- Zlt_Qlt. simpl length. lia.
Qed.

(** The mean of a non-empty list of ordinals is computed without error,
    agrees with the specification's mean and lies between 1 and 5. *)
Lemma mean_of_ordinals (xs : list Z) :
  xs <> [] -> Forall (fun z => 1 <= z <= 5)%Z xs ->
  Py.truediv (inject_Z (Py.sum_int xs)) (Py.len xs)
    = Py.Ok (Fusion.mean_ordinal xs)
  /\ 1 <= Fusion.mean_ordinal xs <= 5.
Proof.
  intros Hne Hall.
  pose proof (len_pos xs Hne) as Hlen.
  pose proof (sum_int_bounds xs Hall) as [Hlo Hhi].
  split.
  - rewrite truediv_ok by lra.
    unfold Fusion.mean_ordinal, Py.len. rewrite sum_int_foldr. reflexivity.
  - unfold Fusion.mean_ordinal. rewrite <- sum_int_foldr.
    fold (Py.len xs). split.
    + apply Qle_shift_div_l; [exact Hlen|].
      unfold Py.len. rewrite Qmult_1_l. rewrite <- Zle_Qle. exact Hlo.
    + apply Qle_shift_div_r; [exact Hlen|].
      unfold Py.len. change 5 with (inject_Z 5). rewrite <- inject_Z_mult, <- Zle_Qle. exact Hhi.
Qed.

Lemma round_to_signal (x : Q) :
  1 <= x <= 5 ->
  exists s, SignalStrength_of_value (Py.round x) = Py.Ok s
            /\ value s = Py.round x.
Proof.
  intros Hx. apply SignalStrength_of_value_ok.
  apply (round_bounds 1 5). exact Hx.
Qed.

End ordinals.

(** * The four component blocks *)

Section blocks.

Import CombinedSignal.

Lemma same_inputs_refl (a : CombinedSignal.t) : same_inputs a a.
Proof. unfold same_inputs. repeat split. Qed.

Lemma same_scores_refl (a : CombinedSignal.t) : same_scores a a.
Proof. unfold same_scores. repeat split. Qed.

Lemma same_inputs_trans (a b c : CombinedSignal.t) :
  same_inputs a b -> same_inputs b c -> same_inputs a c.
Proof.
  unfold same_inputs. intros (?&?&?&?&?&?) (?&?&?&?&?&?).
  repeat split; congruence.
Qed.

Lemma same_scores_trans (a b c : CombinedSignal.t) :
  same_scores a b -> same_scores b c -> same_scores a c.
Proof.
  unfold same_scores. intros (?&?&?) (?&?&?). repeat split; congruence.
Qed.

Lemma contribution_same_inputs (a b : CombinedSignal.t) (c : Fusion.Component) :
  same_inputs a b -> Fusion.contribution a c = Fusion.contribution b c.
Proof.
  intros (_&_&Hmd&Hnews&Hsent&Htech).
  destruct c; unfold Fusion.contribution, news_scores, tech_signals;
    rewrite ?Hmd, ?Hnews, ?Hsent, ?Htech; reflexivity.
Qed.

Lemma news_scores_ordinals (self : CombinedSignal.t) :
  Forall (fun z => 1 <= z <= 5)%Z (news_scores self).
Proof.
  unfold news_scores. apply Forall_forall. intros z Hz.
  apply list_elem_of_fmap in Hz as (item & -> & _). apply value_bounds.
Qed.

Lemma tech_signals_ordinals (self : CombinedSignal.t) (ti : TechnicalIndicators.t) :
  Forall (fun z => 1 <= z <= 5)%Z (tech_signals self ti).
Proof.
  unfold tech_signals.
  destruct (Py.truthy_opt (TechnicalIndicators.rsi_14 ti));
    destruct (market_data self) as [md|];
    try destruct (Py.truthy_opt (TechnicalIndicators.sma_50 ti));
    simpl; repeat constructor; apply value_bounds.
Qed.

Lemma news_scores_nil (self : CombinedSignal.t) :
  news_scores self = [] <-> news_items self = [].
Proof.
  unfold news_scores. destruct (news_items self); simpl; split; congruence.
Qed.

Lemma market_data_block_spec (self : CombinedSignal.t) (signals weights : list Q) :
  exists self',
    market_data_block (self, signals, weights)
      = (self', pushed_signals self Fusion.Price signals,
                pushed_weights self Fusion.Price weights)
    /\ same_inputs self self' /\ same_scores self self'
    /\ block_sets Fusion.Price self self'.
Proof.
  unfold market_data_block, pushed_signals, pushed_weights, block_sets,
    Fusion.contribution.
  destruct (market_data self) as [md|] eqn:Hmd; simpl.
  - destruct (Py.Qltb 10 (Qabs (MarketData.change_24h md)));
      eexists; (split; [reflexivity|]); (split; [frame_done|]);
      (split; [frame_done|]); (split; [|others_kept]); simpl;
      rewrite round_inject_Z; apply SignalStrength_of_value_value.
  - exists self. rewrite !app_nil_r. split; [reflexivity|].
    split; [frame_done|]. split; [frame_done|]. split; [reflexivity|others_kept].
Qed.

Lemma sentiment_block_spec (self : CombinedSignal.t) (signals weights : list Q) :
  exists self',
    sentiment_block (self, signals, weights)
      = (self', pushed_signals self Fusion.Sentiment signals,
                pushed_weights self Fusion.Sentiment weights)
    /\ same_inputs self self' /\ same_scores self self'
    /\ block_sets Fusion.Sentiment self self'.
Proof.
  unfold sentiment_block, pushed_signals, pushed_weights, block_sets,
    Fusion.contribution.
  destruct (sentiment self) as [ms|] eqn:Hms; simpl.
  - destruct ((MarketSentiment.fear_greed_index ms <? 20)%Z
              || (80 <? MarketSentiment.fear_greed_index ms)%Z);
      eexists; (split; [reflexivity|]); (split; [frame_done|]);
      (split; [frame_done|]); (split; [|others_kept]); simpl;
      rewrite round_inject_Z; apply SignalStrength_of_value_value.
  - exists self. rewrite !app_nil_r. split; [reflexivity|].
    split; [frame_done|]. split; [frame_done|]. split; [reflexivity|others_kept].
Qed.

Lemma news_block_spec (self : CombinedSignal.t) (signals weights : list Q) :
  exists self',
    news_block (self, signals, weights)
      = Py.Ok (self', pushed_signals self Fusion.News signals,
                      pushed_weights self Fusion.News weights)
    /\ same_inputs self self' /\ same_scores self self'
    /\ block_sets Fusion.News self self'.
Proof.
  unfold news_block, pushed_signals, pushed_weights, block_sets,
    Fusion.contribution.
  destruct (news_items self) as [|item items] eqn:Hitems.
  - exists self. simpl. rewrite !app_nil_r. split; [reflexivity|].
    split; [frame_done|]. split; [frame_done|]. split; [reflexivity|others_kept].
  - assert (Hne : news_scores self <> []).
    { rewrite news_scores_nil, Hitems. discriminate. }
    destruct (mean_of_ordinals _ Hne (news_scores_ordinals self)) as [Hdiv Hmean].
    destruct (round_to_signal _ Hmean) as (s & Hs & _).
    destruct (news_scores self) as [|z zs] eqn:Hscores; [contradiction|].
    run_result. rewrite Hdiv, Hs. simpl.
    destruct (critical_news _); eexists; (split; [reflexivity|]);
      (split; [frame_done|]); (split; [frame_done|]);
      (split; [exact Hs|others_kept]).
Qed.

Lemma technical_block_spec (self : CombinedSignal.t) (signals weights : list Q) :
  exists self',
    technical_block (self, signals, weights)
      = Py.Ok (self', pushed_signals self Fusion.Technical signals,
                      pushed_weights self Fusion.Technical weights)
    /\ same_inputs self self' /\ same_scores self self'
    /\ block_sets Fusion.Technical self self'.
Proof.
  unfold technical_block, pushed_signals, pushed_weights, block_sets,
    Fusion.contribution.
  destruct (technicals self) as [ti|] eqn:Hti.
  - destruct (tech_signals self ti) as [|z zs] eqn:Hts.
    + exists self. simpl. rewrite !app_nil_r. split; [reflexivity|].
      split; [frame_done|]. split; [frame_done|].
      split; [reflexivity|others_kept].
    + assert (Hne : tech_signals self ti <> []) by (rewrite Hts; discriminate).
      destruct (mean_of_ordinals _ Hne (tech_signals_ordinals self ti))
        as [Hdiv Hmean].
      destruct (round_to_signal _ Hmean) as (s & Hs & _).
      rewrite Hts in Hdiv, Hs. run_result. rewrite Hdiv, Hs. simpl.
      eexists; (split; [reflexivity|]); (split; [frame_done|]);
        (split; [frame_done|]); (split; [exact Hs|others_kept]).
  - exists self. simpl. rewrite !app_nil_r. split; [reflexivity|].
    split; [frame_done|]. split; [frame_done|]. split; [reflexivity|others_kept].
Qed.

End blocks.

(** * The weighted average *)

Section aggregation.

Import CombinedSignal.

Lemma sum_total (xs : list Q) : Py.sum xs == Fusion.total xs.
Proof.
  induction xs as [|x xs IH]; [reflexivity|].
  rewrite sum_cons, IH. reflexivity.
Qed.

Lemma max_Qmax (a b : Q) : Py.max a b == Qmax a b.
Proof.
  unfold Py.max.
  destruct (Py.Qltb a b) eqn:E.
  - apply Qltb_lt in E. symmetry. apply Q.max_r. lra.
  - apply Qltb_ge in E. symmetry. apply Q.max_l. exact E.
Qed.

Lemma min_Qmin (a b : Q) : Py.min a b == Qmin a b.
Proof.
  unfold Py.min.
  destruct (Py.Qltb b a) eqn:E.
  - apply Qltb_lt in E. symmetry. apply Q.min_r. lra.
  - apply Qltb_ge in E. symmetry. apply Q.min_l. exact E.
Qed.

Lemma weight_pos (c : Fusion.Component) : 0 < Fusion.weight c.
Proof. destruct c; reflexivity. Qed.

Lemma weighted_sum_total (p : list (Fusion.Component * Q)) :
  Py.sum (map (fun '(s, w) => s * w)
              (zip (map snd p) (map (fun co => Fusion.weight (fst co)) p)))
  == Fusion.total (map (fun co => Fusion.weight (fst co) * snd co) p).
Proof.
  induction p as [|[c o] p IH]; [reflexivity|].
  simpl map. simpl zip. simpl map. rewrite sum_cons, IH. simpl. ring.
Qed.

Lemma total_weight_pos (p : list (Fusion.Component * Q)) :
  p <> [] -> 0 < Fusion.total (map (fun co => Fusion.weight (fst co)) p).
Proof.
  intros Hne. destruct p as [|[c o] p]; [contradiction|]. clear Hne.
  simpl. pose proof (weight_pos c) as Hc.
  assert (0 <= Fusion.total (map (fun co => Fusion.weight (fst co)) p)) as Hp.
  { induction p as [|[c' o'] p IH]; simpl; [lra|].
    pose proof (weight_pos c'). lra. }
  lra.
Qed.

Lemma weighted_total_bounds (p : list (Fusion.Component * Q)) :
  ordinal_valued p ->
  let tw := Fusion.total (map (fun co => Fusion.weight (fst co)) p) in
  let ws := Fusion.total (map (fun co => Fusion.weight (fst co) * snd co) p) in
  tw <= ws <= 5 * tw.
Proof.
  induction 1 as [|[c o] p Hco _ IH]; simpl in *; [lra|].
  pose proof (weight_pos c) as Hc. nra.
Qed.

Lemma weighted_mean_bounds (p : list (Fusion.Component * Q)) :
  p <> [] -> ordinal_valued p -> 1 <= Fusion.weighted_mean p <= 5.
Proof.
  intros Hne Hp. unfold Fusion.weighted_mean.
  pose proof (total_weight_pos p Hne) as Htw.
  pose proof (weighted_total_bounds p Hp) as [Hlo Hhi].
  split.
  - apply Qle_shift_div_l; [exact Htw|]. lra.
  - apply Qle_shift_div_r; [exact Htw|]. lra.
Qed.

Lemma squared_deviations_total (p : list (Fusion.Component * Q)) (avg mean : Q) :
  avg == mean ->
  Py.sum (map (fun s => (s - avg) ^ 2) (map snd p))
  == Fusion.total (map (fun co => (snd co - mean) ^ 2) p).
Proof.
  intros Havg. induction p as [|[c o] p IH]; [reflexivity|].
  simpl map. rewrite sum_cons, IH. simpl. rewrite Havg. reflexivity.
Qed.

End aggregation.

(** * [calculate_combined_signal] against the fusion rule *)

Section fusion.

Import CombinedSignal.

Lemma contribution_bounds (self : CombinedSignal.t) (c : Fusion.Component) (o : Q) :
  Fusion.contribution self c = Some o -> 1 <= o <= 5.
Proof.
  assert (Hval : forall s, 1 <= inject_Z (value s) <= 5).
  { intros s. pose proof (value_bounds s) as [Hlo Hhi].
    split; [change 1 with (inject_Z 1)|change 5 with (inject_Z 5)];
      rewrite <- Zle_Qle; assumption. }
  destruct c; unfold Fusion.contribution.
  - destruct (market_data self); intros [= <-]. apply Hval.
  - destruct (news_items self) eqn:Hitems; intros [= <-].
    apply mean_of_ordinals; [|apply news_scores_ordinals].
    rewrite news_scores_nil, Hitems. discriminate.
  - destruct (sentiment self); intros [= <-]. apply Hval.
  - destruct (technicals self) as [ti|]; [|discriminate].
    destruct (tech_signals self ti) eqn:Hts; intros [= <-].
    rewrite <- Hts. apply mean_of_ordinals; [|apply tech_signals_ordinals].
    rewrite Hts. discriminate.
Qed.

Lemma present_ordinal_valued (self : CombinedSignal.t) :
  ordinal_valued (Fusion.present self).
Proof.
  unfold ordinal_valued, Fusion.present. apply Forall_forall.
  intros [c o] Hin. apply list_elem_of_omap in Hin as (c' & _ & Hc').
  destruct (Fusion.contribution self c') as [o'|] eqn:Hcontrib;
    simpl in Hc'; [|discriminate].
  injection Hc' as <- <-. simpl. exact (contribution_bounds _ _ _ Hcontrib).
Qed.

(** The four blocks leave in [signals] and [weights] the contributions and
    weights of the present components, in order. *)
Lemma component_blocks_spec (self : CombinedSignal.t) :
  exists self',
    component_blocks self
      = Py.Ok (self', map snd (Fusion.present self),
                      map (fun co => Fusion.weight (fst co)) (Fusion.present self))
    /\ same_inputs self self' /\ same_scores self self'
    /\ forall c, rounds_to (Fusion.contribution self c)
                   (component_signal c self) (component_signal c self').
Proof.
  unfold component_blocks.
  destruct (market_data_block_spec self [] [])
    as (s1 & -> & Hi1 & Hs1 & B1 & K1).
  destruct (news_block_spec s1 (pushed_signals self Fusion.Price [])
              (pushed_weights self Fusion.Price []))
    as (s2 & -> & Hi2 & Hs2 & B2 & K2).
  run_result.
  destruct (sentiment_block_spec s2
              (pushed_signals s1 Fusion.News (pushed_signals self Fusion.Price []))
              (pushed_weights s1 Fusion.News (pushed_weights self Fusion.Price [])))
    as (s3 & -> & Hi3 & Hs3 & B3 & K3).
  destruct (technical_block_spec s3
              (pushed_signals s2 Fusion.Sentiment
                 (pushed_signals s1 Fusion.News (pushed_signals self Fusion.Price [])))
              (pushed_weights s2 Fusion.Sentiment
                 (pushed_weights s1 Fusion.News (pushed_weights self Fusion.Price []))))
    as (s4 & -> & Hi4 & Hs4 & B4 & K4).
  exists s4.
  pose proof (same_inputs_trans _ _ _ Hi1 Hi2) as Hi12.
  pose proof (same_inputs_trans _ _ _ Hi12 Hi3) as Hi13.
  split; [|split; [|split]].
  - unfold pushed_signals, pushed_weights, Fusion.present.
    rewrite <- !(contribution_same_inputs _ _ _ Hi1).
    rewrite <- !(contribution_same_inputs _ _ _ Hi12).
    rewrite <- !(contribution_same_inputs _ _ _ Hi13).
    cbn [omap list_omap].
    destruct (Fusion.contribution self Fusion.Price),
             (Fusion.contribution self Fusion.News),
             (Fusion.contribution self Fusion.Sentiment),
             (Fusion.contribution self Fusion.Technical); reflexivity.
  - exact (same_inputs_trans _ _ _ Hi13 Hi4).
  - eauto using same_scores_trans.
  - rewrite <- (contribution_same_inputs _ _ _ Hi1) in B2.
    rewrite <- (contribution_same_inputs _ _ _ Hi12) in B3.
    rewrite <- (contribution_same_inputs _ _ _ Hi13) in B4.
    intros []; [ rewrite K4, K3, K2 by discriminate; exact B1
               | rewrite K4, K3 by discriminate;
                 rewrite K1 in B2 by discriminate; exact B2
               | rewrite K4 by discriminate;
                 rewrite K2, K1 in B3 by discriminate; exact B3
               | rewrite K3, K2, K1 in B4 by discriminate; exact B4 ].
Qed.

Lemma weighted_average_block_guarded (self : CombinedSignal.t) (signals weights : list Q) :
  signals <> [] -> weights <> [] ->
  weighted_average_block (self, signals, weights)
  = (avg_signal ←
       Py.truediv (Py.sum (map (fun '(s, w) => s * w) (zip signals weights)))
                  (Py.sum weights);
     overall ← SignalStrength_of_value (Py.round avg_signal);
     signal_variance ←
       Py.truediv (Py.sum (map (fun s => (s - avg_signal) ^ 2) signals))
                  (Py.len signals);
     let confidence := Py.max 0 (Py.min 1 (1 - signal_variance / 4)) in
     Py.Ok (set_risk_level (risk_of_confidence confidence)
              (set_confidence confidence (set_overall_signal overall self)))).
Proof.
  intros Hs Hw. destruct signals; [contradiction|].
  destruct weights; [contradiction|]. reflexivity.
Qed.

Lemma weighted_average_block_spec (self : CombinedSignal.t)
    (p : list (Fusion.Component * Q)) :
  p <> [] -> ordinal_valued p ->
  exists self',
    weighted_average_block
      (self, map snd p, map (fun co => Fusion.weight (fst co)) p) = Py.Ok self'
    /\ same_inputs self self'
    /\ SignalStrength_of_value (Py.round (Fusion.weighted_mean p))
       = Py.Ok (overall_signal self')
    /\ confidence self' == Fusion.confidence p
    /\ risk_level self' = risk_of_confidence (confidence self')
    /\ forall c, component_signal c self' = component_signal c self.
Proof.
  intros Hne Hp.
  rewrite weighted_average_block_guarded
    by (destruct p; [contradiction|discriminate]).
  pose proof (total_weight_pos p Hne) as Htw.
  rewrite <- sum_total in Htw.
  rewrite truediv_ok by lra.
  set (avg := Py.sum _ / Py.sum _).
  assert (Havg : avg == Fusion.weighted_mean p).
  { unfold avg, Fusion.weighted_mean.
    rewrite weighted_sum_total, sum_total. reflexivity. }
  pose proof (weighted_mean_bounds p Hne Hp) as Hbounds.
  destruct (round_to_signal _ Hbounds) as (s & Hs & _).
  run_result. rewrite (round_proper _ _ Havg), Hs.
  assert (Hlen : 0 < Py.len (map snd p)).
  { apply len_pos. destruct p; [contradiction|discriminate]. }
  rewrite truediv_ok by lra.
  eexists. split; [reflexivity|].
  split; [frame_done|]. split; [reflexivity|].
  split; [|split; [reflexivity|intros []; reflexivity]].
  simpl. rewrite max_Qmax, min_Qmin. unfold Fusion.confidence.
  assert (Hvar : Py.sum (map (fun s => (s - avg) ^ 2) (map snd p))
                   / Py.len (map snd p)
                 == Fusion.population_variance p (Fusion.weighted_mean p)).
  { unfold Fusion.population_variance, Py.len.
    rewrite (squared_deviations_total p _ _ Havg), length_map. reflexivity. }
  rewrite Hvar. reflexivity.
Qed.

Lemma _generate_reasoning_frame (self : CombinedSignal.t) :
  same_inputs self (_generate_reasoning self)
  /\ same_scores self (_generate_reasoning self)
  /\ forall c, component_signal c (_generate_reasoning self)
               = component_signal c self.
Proof. split; [frame_done|]. split; [frame_done|]. intros []; reflexivity. Qed.

(** [calculate_combined_signal] never raises.  Each component signal is
    the rounded contribution of its component; with no present component
    the three scores are kept, otherwise they are set as the fusion rule
    says. *)
Lemma calculate_combined_signal_spec (self : CombinedSignal.t) :
  exists self',
    calculate_combined_signal self = Py.Ok self'
    /\ same_inputs self self'
    /\ (forall c, rounds_to (Fusion.contribution self c)
                    (component_signal c self) (component_signal c self'))
    /\ (Fusion.present self = [] -> same_scores self self')
    /\ (Fusion.present self <> [] ->
        SignalStrength_of_value (Py.round (Fusion.weighted_mean (Fusion.present self)))
          = Py.Ok (overall_signal self')
        /\ confidence self' == Fusion.confidence (Fusion.present self)
        /\ risk_level self' = risk_of_confidence (confidence self')).
Proof.
  unfold calculate_combined_signal.
  destruct (component_blocks_spec self) as (s1 & -> & Hi1 & Hs1 & Hc1).
  run_result.
  destruct (Fusion.present self) as [|co p] eqn:Hp.
  - exists (_generate_reasoning s1). simpl.
    destruct (_generate_reasoning_frame s1) as (Hi2 & Hs2 & Hc2).
    split; [reflexivity|]. split; [eauto using same_inputs_trans|].
    split; [intros c; rewrite Hc2; apply Hc1|].
    split; [intros _; eauto using same_scores_trans|]. intros []. reflexivity.
  - rewrite <- Hp.
    assert (Hne : Fusion.present self <> []) by (rewrite Hp; discriminate).
    destruct (weighted_average_block_spec s1 _ Hne (present_ordinal_valued self))
      as (s2 & -> & Hi2 & Hov & Hconf & Hrisk & Hc2).
    exists (_generate_reasoning s2).
    destruct (_generate_reasoning_frame s2) as (Hi3 & (Ho3 & Hc3 & Hr3) & Hc4).
    split; [reflexivity|]. split; [eauto using same_inputs_trans|].
    split; [intros c; rewrite Hc4, Hc2; apply Hc1|].
    split; [intros Hnil; contradiction|]. intros _.
    rewrite <- Ho3, <- Hc3, <- Hr3. auto.
Qed.

End fusion.

(** * Claims about the fusion engine *)

Section consensus_claims.

Import CombinedSignal.

(** C1, as stated, fails: with no component present the risk level that
    [calculate_combined_signal] leaves is not "extreme". *)
Lemma zero_components_risk_is_not_extreme :
  ~ exists self',
      calculate_combined_signal Examples.nothing = Py.Ok self'
      /\ overall_signal self' = NEUTRAL /\ confidence self' == 0
      /\ risk_level self' = "extreme"%string.
Proof.
  intros (self' & Hrun & _ & _ & Hrisk).
  vm_compute in Hrun. injection Hrun as <-. discriminate Hrisk.
Qed.

(** C1, amended: when none of the four components is present, the blocks
    leave [signals] and [weights] empty, the guard of the weighted average
    skips the division, and a freshly constructed signal keeps the
    constructor's defaults: NEUTRAL, confidence 0.0 and risk level
    "medium". *)
Theorem zero_components_keep_defaults (symbol : string) (timestamp : Z)
    (technicals : option TechnicalIndicators.t) :
  Fusion.contribution (init symbol timestamp None [] None technicals)
    Fusion.Technical = None ->
  exists self1 self',
    component_blocks (init symbol timestamp None [] None technicals)
      = Py.Ok (self1, [], [])
    /\ weighted_average_block (self1, [], []) = Py.Ok self1
    /\ calculate_combined_signal (init symbol timestamp None [] None technicals)
       = Py.Ok self'
    /\ overall_signal self' = NEUTRAL
    /\ confidence self' = 0.0
    /\ risk_level self' = "medium"%string.
Proof.
  intros Htech.
  set (self := init symbol timestamp None [] None technicals) in *.
  assert (Hp : Fusion.present self = []).
  { unfold Fusion.present. cbn [omap list_omap]. rewrite Htech. reflexivity. }
  destruct (component_blocks_spec self) as (s1 & Hblocks & _).
  destruct (calculate_combined_signal_spec self)
    as (self' & Hrun & _ & _ & Hkeep & _).
  destruct (Hkeep Hp) as (Ho & Hc & Hr).
  rewrite Hp in Hblocks. exists s1, self'.
  split; [exact Hblocks|]. split; [reflexivity|]. split; [exact Hrun|].
  rewrite <- Ho, <- Hc, <- Hr. repeat split.
Qed.

Lemma zero_components_keep_defaults_witness :
  exists self1 self',
    component_blocks (init "BTC" 0 None [] None None) = Py.Ok (self1, [], [])
    /\ weighted_average_block (self1, [], []) = Py.Ok self1
    /\ calculate_combined_signal (init "BTC" 0 None [] None None) = Py.Ok self'
    /\ overall_signal self' = NEUTRAL
    /\ confidence self' = 0.0
    /\ risk_level self' = "medium"%string.
Proof. apply (zero_components_keep_defaults "BTC" 0 None). reflexivity. Defined.



End consensus_claims.

Section confidence_claims.

Import CombinedSignal.

#[local] Instance risk_of_confidence_proper : Proper (Qeq ==> eq) risk_of_confidence.
Proof.
  intros x y Hxy. unfold risk_of_confidence.
  rewrite !(Qltb_proper _ _ Hxy _ _ (Qeq_refl _)). reflexivity.
Qed.

Lemma confidence_bounds (p : list (Fusion.Component * Q)) :
  0 <= Fusion.confidence p <= 1.
Proof.
  unfold Fusion.confidence. split.
  - apply Q.le_max_l.
  - apply Q.max_lub; [lra|]. apply Q.le_min_l.
Qed.

(** C3: whenever a component is present, the confidence is one minus a
    quarter of the population variance of the present contributions
    around their weighted mean, clamped to the unit interval; when all four
    components are present with contribution 5, the result is STRONG_BUY
    with confidence 1 and risk level "low". *)
Theorem confidence_is_clamped_variance (self : CombinedSignal.t) :
  Fusion.present self <> [] ->
  exists self',
    calculate_combined_signal self = Py.Ok self'
    /\ confidence self'
       == Qmax 0 (Qmin 1 (1 - Fusion.population_variance (Fusion.present self)
                                (Fusion.weighted_mean (Fusion.present self)) / 4))
    /\ ((forall c, exists o, Fusion.contribution self c = Some o /\ o == 5) ->
        overall_signal self' = STRONG_BUY
        /\ confidence self' == 1
        /\ risk_level self' = "low"%string).
Proof.
  intros Hne.
  destruct (calculate_combined_signal_spec self)
    as (self' & Hrun & _ & _ & _ & Hset).
  destruct (Hset Hne) as (Hov & Hconf & Hrisk).
  exists self'. split; [exact Hrun|]. split; [exact Hconf|].
  intros Hall.
  destruct (Hall Fusion.Price) as (o1 & H1 & E1).
  destruct (Hall Fusion.News) as (o2 & H2 & E2).
  destruct (Hall Fusion.Sentiment) as (o3 & H3 & E3).
  destruct (Hall Fusion.Technical) as (o4 & H4 & E4).
  assert (Hp : Fusion.present self
               = [(Fusion.Price, o1); (Fusion.News, o2);
                  (Fusion.Sentiment, o3); (Fusion.Technical, o4)]).
  { unfold Fusion.present. cbn [omap list_omap].
    rewrite H1, H2, H3, H4. reflexivity. }
  rewrite Hp in Hov, Hconf.
  assert (Hmean : Fusion.weighted_mean
                    [(Fusion.Price, o1); (Fusion.News, o2);
                     (Fusion.Sentiment, o3); (Fusion.Technical, o4)] == 5).
  { unfold Fusion.weighted_mean. simpl. rewrite E1, E2, E3, E4. reflexivity. }
  assert (Hc : confidence self' == 1).
  { rewrite Hconf. unfold Fusion.confidence, Fusion.population_variance.
    rewrite <- max_Qmax, <- min_Qmin.
    revert Hmean. generalize (Fusion.weighted_mean
      [(Fusion.Price, o1); (Fusion.News, o2);
       (Fusion.Sentiment, o3); (Fusion.Technical, o4)]).
    intros m Hmean.
    assert (Hvar : Fusion.total
                     (map (fun co => (snd co - m) ^ 2)
                        [(Fusion.Price, o1); (Fusion.News, o2);
                         (Fusion.Sentiment, o3); (Fusion.Technical, o4)]) == 0).
    { simpl. rewrite E1, E2, E3, E4, Hmean. reflexivity. }
    rewrite Hvar. reflexivity. }
  split; [|split; [exact Hc|]].
  - apply value_inj. apply SignalStrength_of_value_inv in Hov.
    rewrite Hov, Hmean. reflexivity.
  - rewrite Hrisk, Hc. reflexivity.
Qed.

Lemma confidence_is_clamped_variance_witness :
  exists self',
    calculate_combined_signal Examples.unanimous_strong_buy = Py.Ok self'
    /\ confidence self'
       == Qmax 0 (Qmin 1 (1 - Fusion.population_variance
                                (Fusion.present Examples.unanimous_strong_buy)
                                (Fusion.weighted_mean
                                   (Fusion.present Examples.unanimous_strong_buy)) / 4))
    /\ ((forall c, exists o,
           Fusion.contribution Examples.unanimous_strong_buy c = Some o /\ o == 5) ->
        overall_signal self' = STRONG_BUY
        /\ confidence self' == 1
        /\ risk_level self' = "low"%string).
Proof.
  apply (confidence_is_clamped_variance Examples.unanimous_strong_buy).
  vm_compute. discriminate.
Defined.

(** The premise of the second part of C3 holds of the example: each of
    its four contributions is 5. *)
Example unanimous_strong_buy_contributions (c : Fusion.Component) :
  exists o, Fusion.contribution Examples.unanimous_strong_buy c = Some o /\ o == 5.
Proof. destruct c; eexists; split; reflexivity. Qed.

(** C7: from a confidence in the unit interval, [calculate_combined_signal]
    returns without raising, the confidence is again in the unit interval,
    and each of the three rounded means (news, technical, overall) lies in
    1..5, so that its conversion to the enum succeeds and gives the field
    its value. *)
Theorem scores_stay_valid (self : CombinedSignal.t) :
  0 <= confidence self <= 1 ->
  exists self',
    calculate_combined_signal self = Py.Ok self'
    /\ 0 <= confidence self' <= 1
    /\ (1 <= value (overall_signal self') <= 5)%Z
    /\ (1 <= value (news_signal self') <= 5)%Z
    /\ (1 <= value (technical_signal self') <= 5)%Z
    /\ (forall o, Fusion.contribution self Fusion.News = Some o ->
          (1 <= Py.round o <= 5)%Z
          /\ SignalStrength_of_value (Py.round o) = Py.Ok (news_signal self'))
    /\ (forall o, Fusion.contribution self Fusion.Technical = Some o ->
          (1 <= Py.round o <= 5)%Z
          /\ SignalStrength_of_value (Py.round o) = Py.Ok (technical_signal self'))
    /\ (Fusion.present self <> [] ->
          (1 <= Py.round (Fusion.weighted_mean (Fusion.present self)) <= 5)%Z
          /\ SignalStrength_of_value
               (Py.round (Fusion.weighted_mean (Fusion.present self)))
             = Py.Ok (overall_signal self')).
Proof.
  intros Hconf0.
  destruct (calculate_combined_signal_spec self)
    as (self' & Hrun & _ & Hcomp & Hkeep & Hset).
  exists self'. split; [exact Hrun|]. split.
  { destruct (Fusion.present self) as [|co p] eqn:Hp.
    - destruct (Hkeep eq_refl) as (_ & <- & _). exact Hconf0.
    - destruct Hset as (_ & -> & _); [discriminate|]. apply confidence_bounds. }
  repeat (split; [apply value_bounds|]).
  split; [|split].
  - intros o Ho. pose proof (Hcomp Fusion.News) as Hn. rewrite Ho in Hn.
    split; [|exact Hn]. apply (round_bounds 1 5).
    exact (contribution_bounds _ _ _ Ho).
  - intros o Ho. pose proof (Hcomp Fusion.Technical) as Ht. rewrite Ho in Ht.
    split; [|exact Ht]. apply (round_bounds 1 5).
    exact (contribution_bounds _ _ _ Ho).
  - intros Hne. split; [|apply Hset, Hne]. apply (round_bounds 1 5).
    apply weighted_mean_bounds; [exact Hne|apply present_ordinal_valued].
Qed.

Lemma scores_stay_valid_witness :
  0 <= confidence Examples.unanimous_strong_buy <= 1
  /\ exists self',
    calculate_combined_signal Examples.unanimous_strong_buy = Py.Ok self'
    /\ 0 <= confidence self' <= 1.
Proof.
  assert (H : 0 <= confidence Examples.unanimous_strong_buy <= 1)
    by (split; discriminate).
  split; [exact H|].
  destruct (scores_stay_valid Examples.unanimous_strong_buy H)
    as (self' & Hrun & Hconf & _).
  exists self'. split; assumption.
Defined.

(** C10: [calculate_combined_signal] returns with the six input fields,
    and so the records they hold, exactly as they were. *)
Theorem inputs_are_left_unchanged (self : CombinedSignal.t) :
  exists self',
    calculate_combined_signal self = Py.Ok self'
    /\ symbol self' = symbol self
    /\ timestamp self' = timestamp self
    /\ market_data self' = market_data self
    /\ news_items self' = news_items self
    /\ sentiment self' = sentiment self
    /\ technicals self' = technicals self.
Proof.
  destruct (calculate_combined_signal_spec self)
    as (self' & Hrun & (H1 & H2 & H3 & H4 & H5 & H6) & _).
  exists self'. repeat split; congruence.
Qed.

End confidence_claims.

Section technical_claims.

Import CombinedSignal.

(** C8, as stated, fails: with a technical record present but no
    indicator in it, the technical component contributes nothing, NEUTRAL
    or otherwise.  Only the price entry reaches [signals] and [weights],
    and the result is STRONG_BUY with confidence 1; a NEUTRAL technical
    contribution of weight 0.25 beside the price's 5 would have given mean
    4. *)
Lemma blank_technicals_contribute_nothing :
  technicals Examples.rally_blank_technicals
    = Some (Examples.indicators None None None)
  /\ Fusion.contribution Examples.rally_blank_technicals Fusion.Technical = None
  /\ (exists self1,
        component_blocks Examples.rally_blank_technicals
        = Py.Ok (self1, [inject_Z 5], [0.25]))
  /\ (exists self',
        calculate_combined_signal Examples.rally_blank_technicals = Py.Ok self'
        /\ overall_signal self' = STRONG_BUY /\ confidence self' == 1)
  /\ Py.round ((0.25 * 5 + 0.25 * 3) / (0.25 + 0.25)) = 4%Z.
Proof.
  split; [reflexivity|]. split; [reflexivity|].
  split; [eexists; reflexivity|].
  split; [|reflexivity].
  eexists. split; [vm_compute; reflexivity|]. split; reflexivity.
Qed.

(** C8, amended: with a technical record present nothing raises:
    [get_rsi_signal] is NEUTRAL without an RSI, [get_ma_signal] is NEUTRAL
    without either moving average, and [calculate_combined_signal]
    returns.  In the aggregation an absent sub-signal is left out rather
    than counted as NEUTRAL: the RSI signal enters the technical mean only
    when [rsi_14] is set, the moving-average signal only when market data
    and [sma_50] are; when neither enters, the technical component
    contributes nothing and [technical_signal] keeps its value. *)
Theorem absent_indicators_are_left_out (self : CombinedSignal.t)
    (ti : TechnicalIndicators.t) :
  technicals self = Some ti ->
  (Py.truthy_opt (TechnicalIndicators.rsi_14 ti) = false ->
   TechnicalIndicators.get_rsi_signal ti = NEUTRAL)
  /\ (forall current_price,
        Py.truthy_opt (TechnicalIndicators.sma_50 ti) = false
        \/ Py.truthy_opt (TechnicalIndicators.sma_200 ti) = false ->
        TechnicalIndicators.get_ma_signal ti current_price = NEUTRAL)
  /\ tech_signals self ti
     = (if Py.truthy_opt (TechnicalIndicators.rsi_14 ti)
        then [value (TechnicalIndicators.get_rsi_signal ti)] else [])
       ++ match market_data self with
          | Some md =>
              if Py.truthy_opt (TechnicalIndicators.sma_50 ti)
              then [value (TechnicalIndicators.get_ma_signal ti
                             (MarketData.price md))]
              else []
          | None => []
          end
  /\ exists self',
       calculate_combined_signal self = Py.Ok self'
       /\ (tech_signals self ti = [] ->
           Fusion.contribution self Fusion.Technical = None
           /\ (Fusion.Technical ∉ map fst (Fusion.present self))
           /\ technical_signal self' = technical_signal self).
Proof.
  intros Hti. split; [|split; [|split]].
  - unfold TechnicalIndicators.get_rsi_signal.
    destruct (TechnicalIndicators.rsi_14 ti) as [rsi|]; simpl; [|reflexivity].
    intros ->. reflexivity.
  - intros current_price. unfold TechnicalIndicators.get_ma_signal.
    destruct (TechnicalIndicators.sma_50 ti) as [s50|],
             (TechnicalIndicators.sma_200 ti) as [s200|]; simpl;
      try reflexivity.
    intros [-> | ->]; [reflexivity|]. rewrite orb_true_r. reflexivity.
  - unfold tech_signals.
    destruct (Py.truthy_opt (TechnicalIndicators.rsi_14 ti));
      destruct (market_data self) as [md|];
      try destruct (Py.truthy_opt (TechnicalIndicators.sma_50 ti));
      reflexivity.
  - destruct (calculate_combined_signal_spec self)
      as (self' & Hrun & _ & Hcomp & _).
    exists self'. split; [exact Hrun|]. intros Hnone.
    assert (Hc : Fusion.contribution self Fusion.Technical = None).
    { unfold Fusion.contribution. rewrite Hti, Hnone. reflexivity. }
    split; [exact Hc|]. split.
    + unfold Fusion.present. cbn [omap list_omap]. rewrite Hc.
      destruct (Fusion.contribution self Fusion.Price),
               (Fusion.contribution self Fusion.News),
               (Fusion.contribution self Fusion.Sentiment); simpl;
        intros Hin;
        repeat (apply elem_of_cons in Hin as [Hin|Hin]; [discriminate|]);
        exact (not_elem_of_nil _ Hin).
    + pose proof (Hcomp Fusion.Technical) as Ht. rewrite Hc in Ht. exact Ht.
Qed.

Lemma absent_indicators_are_left_out_witness :
  tech_signals Examples.rally_blank_technicals (Examples.indicators None None None) = []
  /\ exists self',
       calculate_combined_signal Examples.rally_blank_technicals = Py.Ok self'
       /\ (tech_signals Examples.rally_blank_technicals
             (Examples.indicators None None None) = [] ->
           Fusion.contribution Examples.rally_blank_technicals Fusion.Technical = None
           /\ (Fusion.Technical ∉ map fst (Fusion.present Examples.rally_blank_technicals))
           /\ technical_signal self' = technical_signal Examples.rally_blank_technicals).
Proof.
  split; [reflexivity|].
  apply (absent_indicators_are_left_out Examples.rally_blank_technicals
           (Examples.indicators None None None) eq_refl).
Defined.

End technical_claims.

(** * Claims about the pipeline *)

Section rate_limiter.

Import CryptoDataPipeline.







End rate_limiter.

Section cache.

Import CryptoDataPipeline.

Lemma sub_cache_set (category : Category)
    (d : gmap string (Entry (data_of category))) (cache : Cache) :
  sub_cache category (set_sub_cache category d cache) = d.
Proof. destruct category; reflexivity. Qed.

Lemma lookup_after_update (category : Category) (key : string)
    (record : data_of category) (written : Z) (self : CryptoDataPipeline.t) :
  sub_cache category (cache (_update_cache category key record written self)) !! key
  = Some (mkEntry record written).
Proof.
  unfold _update_cache. simpl. rewrite sub_cache_set. apply lookup_insert_eq.
Qed.

(** What a read finds after a write to the same key: the record, as long
    as the seconds field of the elapsed time is below the window. *)
Lemma cached_if_fresh_after_update (category : Category) (key : string)
    (record : data_of category) (written now ttl : Z)
    (self : CryptoDataPipeline.t) :
  cached_if_fresh category key ttl now
    (_update_cache category key record written self)
  = if (seconds (now - written) <? ttl)%Z then Some record else None.
Proof.
  unfold cached_if_fresh. rewrite lookup_after_update. reflexivity.
Qed.

Lemma seconds_within_a_day (delta : Z) :
  (0 <= delta < 86400000000)%Z -> seconds delta = (delta `div` 1000000)%Z.
Proof. intros H. unfold seconds. rewrite Z.mod_small by exact H. reflexivity. Qed.

(** The first half of C5 holds: a record read back before the window has
    elapsed is the record written. *)
Lemma fresh_record_is_returned (category : Category) (key : string)
    (record : data_of category) (written now ttl : Z)
    (self : CryptoDataPipeline.t) :
  (0 <= now - written < ttl * 1000000)%Z -> (ttl <= 86400)%Z ->
  cached_if_fresh category key ttl now
    (_update_cache category key record written self) = Some record.
Proof.
  intros Helapsed Httl. rewrite cached_if_fresh_after_update.
  rewrite seconds_within_a_day by lia.
  assert (H : ((now - written) `div` 1000000 <? ttl)%Z = true).
  { apply Z.ltb_lt. apply Z.div_lt_upper_bound; lia. }
  rewrite H. reflexivity.
Qed.

(** C5, second half, fails on the code: a market-data record written at
    time 0 and read one day and ten seconds later, long after its
    five-minute window, is still returned, because the age test looks at the
    seconds field of the elapsed time, which starts again from zero every
    day.  [_collect_market_data] then serves the stale record when both
    providers fail. *)
Theorem stale_record_served_after_a_day :
  (300 * PipelineExamples.one_second < PipelineExamples.a_day_later - 0)%Z
  /\ seconds (PipelineExamples.a_day_later - 0) = 10%Z
  /\ cached_if_fresh Market_data "market_BTC" 300 PipelineExamples.a_day_later
       PipelineExamples.quote_cached_at_0
     = Some PipelineExamples.btc_quote
  /\ snd (_collect_market_data
            (PipelineExamples.providers_down PipelineExamples.a_day_later)
            "BTC" PipelineExamples.quote_cached_at_0)
     = Some PipelineExamples.btc_quote.
Proof. repeat split. Qed.

(** C4, as stated, fails for news: with an old story cached a minute ago
    and a feed that would deliver a new one, [_collect_news] returns the
    cached story and leaves the pipeline as it was; the answer of the feed
    plays no part. *)
Lemma cached_news_preferred_to_live :
  cryptocompare PipelineExamples.news_flowing "BTC"
    = News_fetched [PipelineExamples.story "new"]
  /\ _collect_news PipelineExamples.news_flowing "BTC"
       PipelineExamples.old_story_cached_at_0
     = (PipelineExamples.old_story_cached_at_0, [PipelineExamples.story "old"])
  /\ [PipelineExamples.story "old"] <> [PipelineExamples.story "new"].
Proof. split; [reflexivity|]. split; [reflexivity|]. discriminate. Qed.

(** C4, amended: for market data the cache is a fallback: a record
    fetched from Polygon, or else from CoinGecko, is returned whatever the
    cache holds, and the cache is read only when neither gave one.  For news
    and for sentiment the cache is read first: a fresh entry is returned as
    it is, the pipeline unchanged and whatever the live source would
    answer; the live source is asked only when there is no fresh entry. *)
Theorem cache_order_by_category (w : World) (symbol : string)
    (self : CryptoDataPipeline.t) :
  (forall md,
     key_configured (polygon_key self) = true ->
     _check_rate_limit "polygon" self = true ->
     polygon w symbol = Some md ->
     snd (_collect_market_data w symbol self) = Some md)
  /\ (forall md,
        key_configured (polygon_key self) && _check_rate_limit "polygon" self
          = false
        \/ polygon w symbol = None ->
        _check_rate_limit "coingecko" self = true ->
        coingecko w symbol = Some md ->
        snd (_collect_market_data w symbol self) = Some md)
  /\ (key_configured (polygon_key self) && _check_rate_limit "polygon" self
        = false
      \/ polygon w symbol = None ->
      _check_rate_limit "coingecko" self = false \/ coingecko w symbol = None ->
      _collect_market_data w symbol self
      = (self, cached_if_fresh Market_data ("market_" +:+ symbol) 300 (now w) self))
  /\ (forall cached,
        cached_if_fresh News ("news_" +:+ symbol) 1800 (now w) self = Some cached ->
        _collect_news w symbol self = (self, cached))
  /\ (cached_if_fresh News ("news_" +:+ symbol) 1800 (now w) self = None ->
      snd (_collect_news w symbol self) = response_items (cryptocompare w symbol))
  /\ (forall cached,
        cached_if_fresh Sentiment "sentiment_global" 3600 (now w) self = Some cached ->
        _collect_sentiment w self = (self, Some cached))
  /\ (cached_if_fresh Sentiment "sentiment_global" 3600 (now w) self = None ->
      snd (_collect_sentiment w self) = alternative w).
Proof.
  assert (Hskip : key_configured (polygon_key self)
                  && _check_rate_limit "polygon" self = false
                  \/ polygon w symbol = None ->
                  (if key_configured (polygon_key self)
                      && _check_rate_limit "polygon" self
                   then _fetch_polygon_data w symbol self
                   else (self, None)) = (self, None)).
  { intros [-> | Hnone]; [reflexivity|].
    unfold _fetch_polygon_data. rewrite Hnone.
    destruct (_ && _); reflexivity. }
  repeat apply conj.
  - intros md Hkey Hcheck Hlive. unfold _collect_market_data.
    rewrite Hkey, Hcheck. unfold _fetch_polygon_data. rewrite Hlive.
    reflexivity.
  - intros md Hpolygon Hcheck Hlive. unfold _collect_market_data.
    rewrite (Hskip Hpolygon), Hcheck. unfold _fetch_coingecko_data.
    rewrite Hlive. reflexivity.
  - intros Hpolygon Hgecko. unfold _collect_market_data.
    rewrite (Hskip Hpolygon).
    destruct Hgecko as [-> | Hnone]; [reflexivity|].
    unfold _fetch_coingecko_data. rewrite Hnone.
    destruct (_check_rate_limit "coingecko" self); reflexivity.
  - intros cached Hhit. unfold _collect_news. rewrite Hhit. reflexivity.
  - intros Hmiss. unfold _collect_news. rewrite Hmiss.
    destruct (cryptocompare w symbol); reflexivity.
  - intros cached Hhit. unfold _collect_sentiment. rewrite Hhit. reflexivity.
  - intros Hmiss. unfold _collect_sentiment. rewrite Hmiss.
    destruct (alternative w); reflexivity.
Qed.

End cache.

Section batch.

Import CryptoDataPipeline.

Variable body : string -> CryptoDataPipeline.t
                -> CryptoDataPipeline.t * Py.result CombinedSignal.t.







End batch.

Section batch_examples.

Import CryptoDataPipeline.

(** A batch with a failing symbol in the middle: the symbols before and
    after it are in the map, the failing one is not. *)
Example flaky_batch_skips_one :
  (collect_loop PipelineExamples.flaky_body ["BTC"; "BAD"; "ETH"]%string
     PipelineExamples.fresh ∅).2 !! "BTC"%string
  = Some (CombinedSignal.init "BTC" 0 None [] None None)
  /\ (collect_loop PipelineExamples.flaky_body ["BTC"; "BAD"; "ETH"]%string
        PipelineExamples.fresh ∅).2 !! "BAD"%string = None
  /\ (collect_loop PipelineExamples.flaky_body ["BTC"; "BAD"; "ETH"]%string
        PipelineExamples.fresh ∅).2 !! "ETH"%string
     = Some (CombinedSignal.init "ETH" 0 None [] None None).
Proof. repeat split. Qed.


End batch_examples.

(** * Further properties of the code *)

(** Turns the tests [Py.Qltb a b = true] and [= false] among the
    hypotheses into the order facts they decide. *)
Ltac order_facts :=
  repeat match goal with
         | H : Py.Qltb _ _ = true |- _ => apply Qltb_lt in H
         | H : Py.Qltb _ _ = false |- _ => apply Qltb_ge in H
         | H : (_ <? _)%Z = true |- _ => apply Z.ltb_lt in H
         | H : (_ <? _)%Z = false |- _ => apply Z.ltb_ge in H
         end.

(** Splits on every float comparison of the goal. *)
Ltac split_comparisons :=
  repeat match goal with
         | |- context [Py.Qltb ?a ?b] =>
             let E := fresh "E" in destruct (Py.Qltb a b) eqn:E
         | |- context [(?a <? ?b)%Z] =>
             let E := fresh "E" in destruct (a <? b)%Z eqn:E
         end.

(** ** The signal maps of the data models *)

Section signal_maps.

(** X1: the price signal never decreases when the 24h change increases. *)
Theorem price_signal_monotone (a b : MarketData.t) :
  MarketData.change_24h a <= MarketData.change_24h b ->
  (value (MarketData.get_signal_strength a)
   <= value (MarketData.get_signal_strength b))%Z.
Proof.
  intros Hab. unfold MarketData.get_signal_strength.
  split_comparisons; simpl; try lia; order_facts; lra.
Qed.

Lemma price_signal_monotone_witness :
  (value (MarketData.get_signal_strength (Examples.btc_market 2))
   <= value (MarketData.get_signal_strength (Examples.btc_market 15)))%Z.
Proof.
  apply (price_signal_monotone (Examples.btc_market 2) (Examples.btc_market 15)).
  discriminate.
Defined.

(** X2: the price signal is symmetric: a change of the opposite sign gives
    the mirrored ordinal. *)
Theorem price_signal_mirror (a b : MarketData.t) :
  MarketData.change_24h b == - MarketData.change_24h a ->
  value (MarketData.get_signal_strength b)
  = (6 - value (MarketData.get_signal_strength a))%Z.
Proof.
  intros Hab. unfold MarketData.get_signal_strength.
  split_comparisons; simpl; try lia; order_facts; lra.
Qed.

Lemma price_signal_mirror_witness :
  value (MarketData.get_signal_strength (Examples.btc_market (-15)))
  = (6 - value (MarketData.get_signal_strength (Examples.btc_market 15)))%Z.
Proof.
  apply (price_signal_mirror (Examples.btc_market 15) (Examples.btc_market (-15))).
  reflexivity.
Defined.

(** X3: the sentiment signal is contrarian: it never increases when the
    fear and greed index increases, and the index mirrored at 50 gives the
    mirrored ordinal. *)
Theorem contrarian_signal_antitone (a b : MarketSentiment.t) :
  (MarketSentiment.fear_greed_index a <= MarketSentiment.fear_greed_index b)%Z ->
  (value (MarketSentiment.get_contrarian_signal b)
   <= value (MarketSentiment.get_contrarian_signal a))%Z
  /\ (MarketSentiment.fear_greed_index a + MarketSentiment.fear_greed_index b
      = 100 ->
      value (MarketSentiment.get_contrarian_signal b)
      = 6 - value (MarketSentiment.get_contrarian_signal a))%Z.
Proof.
  intros Hab. unfold MarketSentiment.get_contrarian_signal.
  split; [|intros Hsum]; split_comparisons; simpl; try lia; order_facts; lia.
Qed.

Lemma contrarian_signal_antitone_witness :
  (value (MarketSentiment.get_contrarian_signal (Examples.fear_greed 90 "Extreme Greed"))
   <= value (MarketSentiment.get_contrarian_signal (Examples.fear_greed 10 "Extreme Fear")))%Z
  /\ (MarketSentiment.fear_greed_index (Examples.fear_greed 10 "Extreme Fear")
      + MarketSentiment.fear_greed_index (Examples.fear_greed 90 "Extreme Greed")
      = 100 ->
      value (MarketSentiment.get_contrarian_signal (Examples.fear_greed 90 "Extreme Greed"))
      = 6 - value (MarketSentiment.get_contrarian_signal (Examples.fear_greed 10 "Extreme Fear")))%Z.
Proof.
  apply (contrarian_signal_antitone (Examples.fear_greed 10 "Extreme Fear")
           (Examples.fear_greed 90 "Extreme Greed")).
  simpl. lia.
Defined.

(** X4: the mood text and the contrarian signal agree on extreme fear but
    not on extreme greed: the mood is "Extreme panic" exactly when the
    signal is STRONG_BUY; a STRONG_SELL signal always has the mood "Extreme
    greed", but at index 80 the mood is "Extreme greed" while the signal is
    SELL. *)
Theorem mood_and_contrarian_signal (self : MarketSentiment.t) :
  (MarketSentiment.get_market_mood self
     = "Extreme panic - potential buying opportunity"%string
   <-> MarketSentiment.get_contrarian_signal self = STRONG_BUY)
  /\ (MarketSentiment.get_contrarian_signal self = STRONG_SELL ->
      MarketSentiment.get_market_mood self
      = "Extreme greed - high risk of correction"%string)
  /\ (MarketSentiment.get_market_mood self
        = "Extreme greed - high risk of correction"%string
      /\ MarketSentiment.get_contrarian_signal self <> STRONG_SELL
      <-> MarketSentiment.fear_greed_index self = 80%Z).
Proof.
  unfold MarketSentiment.get_market_mood, MarketSentiment.get_contrarian_signal.
  repeat split; split_comparisons; order_facts;
    try (intros; discriminate); try (intros; reflexivity); try (intros; lia);
    try (intros [? ?]; first [discriminate | congruence | lia]).
Qed.

End signal_maps.

Section news_and_technical_maps.

(** X5: a news item is rated STRONG_BUY or STRONG_SELL only when its
    impact level is "high" or "critical", and for a given impact level the
    rating never decreases when the sentiment score increases. *)
Theorem news_signal_by_score_and_impact (a b : NewsItem.t) :
  NewsItem.impact_level a = NewsItem.impact_level b ->
  NewsItem.sentiment_score a <= NewsItem.sentiment_score b ->
  (value (NewsItem.get_signal_from_sentiment a)
   <= value (NewsItem.get_signal_from_sentiment b))%Z
  /\ (Py.str_in (NewsItem.impact_level a) ["high"; "critical"]%string = false ->
      (2 <= value (NewsItem.get_signal_from_sentiment a) <= 4)%Z).
Proof.
  intros Himpact Hscore. unfold NewsItem.get_signal_from_sentiment.
  rewrite <- Himpact.
  destruct (Py.str_in (NewsItem.impact_level a) ["high"; "critical"]%string);
    rewrite ?andb_true_r, ?andb_false_r.
  - split; [|discriminate].
    split_comparisons; simpl; try lia; order_facts; lra.
  - split; [|intros _];
      split_comparisons; simpl; try lia; order_facts; lra.
Qed.

Lemma news_signal_by_score_and_impact_witness :
  (value (NewsItem.get_signal_from_sentiment (Examples.headline 0.3%Q "low"))
   <= value (NewsItem.get_signal_from_sentiment (Examples.headline 0.9%Q "low")))%Z
  /\ (Py.str_in (NewsItem.impact_level (Examples.headline 0.3%Q "low"))
        ["high"; "critical"]%string = false ->
      (2 <= value (NewsItem.get_signal_from_sentiment (Examples.headline 0.3%Q "low"))
       <= 4)%Z).
Proof.
  apply (news_signal_by_score_and_impact (Examples.headline 0.3%Q "low")
           (Examples.headline 0.9%Q "low")); [reflexivity|discriminate].
Defined.

(** X6: an RSI of exactly zero is read as a missing RSI and gives NEUTRAL,
    although every RSI strictly between 0 and 30 gives STRONG_BUY; over
    non-zero values the signal never increases with the RSI. *)
Theorem rsi_signal_antitone (a b : TechnicalIndicators.t) (ra rb : Q) :
  TechnicalIndicators.rsi_14 a = Some ra ->
  TechnicalIndicators.rsi_14 b = Some rb ->
  ra <= rb ->
  (~ ra == 0 -> ~ rb == 0 ->
   (value (TechnicalIndicators.get_rsi_signal b)
    <= value (TechnicalIndicators.get_rsi_signal a))%Z)
  /\ (ra == 0 -> TechnicalIndicators.get_rsi_signal a = NEUTRAL)
  /\ (0 < ra -> ra < 30 -> TechnicalIndicators.get_rsi_signal a = STRONG_BUY).
Proof.
  intros Ha Hb Hab. unfold TechnicalIndicators.get_rsi_signal.
  rewrite Ha, Hb. unfold Py.truthy.
  split; [|split].
  - intros Hna Hnb.
    destruct (Qeq_bool ra 0) eqn:Ea; [apply Qeq_bool_iff in Ea; contradiction|].
    destruct (Qeq_bool rb 0) eqn:Eb; [apply Qeq_bool_iff in Eb; contradiction|].
    simpl. split_comparisons; simpl; try lia; order_facts; lra.
  - intros Hzero. apply Qeq_bool_iff in Hzero. rewrite Hzero. reflexivity.
  - intros Hpos Hlow.
    destruct (Qeq_bool ra 0) eqn:Ea; [apply Qeq_bool_iff in Ea; lra|].
    simpl. split_comparisons; try reflexivity; order_facts; lra.
Qed.

Lemma rsi_signal_antitone_witness :
  (~ 25 == 0 -> ~ 75 == 0 ->
   (value (TechnicalIndicators.get_rsi_signal (Examples.indicators (Some 75%Q) None None))
    <= value (TechnicalIndicators.get_rsi_signal (Examples.indicators (Some 25%Q) None None)))%Z)
  /\ (25 == 0 ->
      TechnicalIndicators.get_rsi_signal (Examples.indicators (Some 25%Q) None None)
      = NEUTRAL)
  /\ (0 < 25 -> 25 < 30 ->
      TechnicalIndicators.get_rsi_signal (Examples.indicators (Some 25%Q) None None)
      = STRONG_BUY).
Proof.
  apply (rsi_signal_antitone (Examples.indicators (Some 25%Q) None None)
           (Examples.indicators (Some 75%Q) None None) 25 75);
    [reflexivity|reflexivity|discriminate].
Defined.

(** X7: with both moving averages set and non-zero, the moving-average
    signal is on the side of the price relative to the 50-day average: at
    least BUY above it, at most SELL below it, NEUTRAL on it; it is
    STRONG_BUY exactly on a golden cross with the price above the 50-day
    average, STRONG_SELL exactly on a death cross with the price below. *)
Theorem ma_signal_follows_price (self : TechnicalIndicators.t)
    (s50 s200 current_price : Q) :
  TechnicalIndicators.sma_50 self = Some s50 ->
  TechnicalIndicators.sma_200 self = Some s200 ->
  ~ s50 == 0 -> ~ s200 == 0 ->
  (s50 < current_price ->
   (4 <= value (TechnicalIndicators.get_ma_signal self current_price))%Z)
  /\ (current_price < s50 ->
      (value (TechnicalIndicators.get_ma_signal self current_price) <= 2)%Z)
  /\ (current_price == s50 ->
      TechnicalIndicators.get_ma_signal self current_price = NEUTRAL)
  /\ (TechnicalIndicators.get_ma_signal self current_price = STRONG_BUY
      <-> s200 < s50 /\ s50 < current_price)
  /\ (TechnicalIndicators.get_ma_signal self current_price = STRONG_SELL
      <-> s50 < s200 /\ current_price < s50).
Proof.
  intros H50 H200 Hn50 Hn200. unfold TechnicalIndicators.get_ma_signal.
  rewrite H50, H200. unfold Py.truthy.
  destruct (Qeq_bool s50 0) eqn:E50; [apply Qeq_bool_iff in E50; contradiction|].
  destruct (Qeq_bool s200 0) eqn:E200; [apply Qeq_bool_iff in E200; contradiction|].
  simpl. split_comparisons; simpl; order_facts;
    repeat split; intros;
    repeat match goal with H : _ /\ _ |- _ => destruct H end;
    first [discriminate | reflexivity | lia | lra | split; lra].
Qed.

Lemma ma_signal_follows_price_witness :
  (90 < 100 ->
   (4 <= value (TechnicalIndicators.get_ma_signal
                  (Examples.indicators None (Some 90%Q) (Some 80%Q)) 100%Q))%Z)
  /\ (100 < 90 ->
      (value (TechnicalIndicators.get_ma_signal
                (Examples.indicators None (Some 90%Q) (Some 80%Q)) 100%Q) <= 2)%Z)
  /\ (100 == 90 ->
      TechnicalIndicators.get_ma_signal
        (Examples.indicators None (Some 90%Q) (Some 80%Q)) 100%Q = NEUTRAL)
  /\ (TechnicalIndicators.get_ma_signal
        (Examples.indicators None (Some 90%Q) (Some 80%Q)) 100%Q = STRONG_BUY
      <-> 80 < 90 /\ 90 < 100)
  /\ (TechnicalIndicators.get_ma_signal
        (Examples.indicators None (Some 90%Q) (Some 80%Q)) 100%Q = STRONG_SELL
      <-> 90 < 80 /\ 100 < 90).
Proof.
  apply (ma_signal_follows_price (Examples.indicators None (Some 90%Q) (Some 80%Q))
           90 80 100); [reflexivity|reflexivity|discriminate|discriminate].
Defined.

End news_and_technical_maps.

(** ** The consensus *)

Section consensus_properties.

Import CombinedSignal.

Lemma weighted_total_between (lo hi : Q) (p : list (Fusion.Component * Q)) :
  Forall (fun co => lo <= snd co <= hi) p ->
  lo * Fusion.total (map (fun co => Fusion.weight (fst co)) p)
  <= Fusion.total (map (fun co => Fusion.weight (fst co) * snd co) p)
  /\ Fusion.total (map (fun co => Fusion.weight (fst co) * snd co) p)
     <= hi * Fusion.total (map (fun co => Fusion.weight (fst co)) p).
Proof.
  induction 1 as [|[c o] p Hco _ IH]; simpl in *; [lra|].
  pose proof (weight_pos c) as Hc. nra.
Qed.

Lemma weighted_mean_between (lo hi : Q) (p : list (Fusion.Component * Q)) :
  p <> [] -> Forall (fun co => lo <= snd co <= hi) p ->
  lo <= Fusion.weighted_mean p <= hi.
Proof.
  intros Hne Hp. unfold Fusion.weighted_mean.
  pose proof (total_weight_pos p Hne) as Htw.
  pose proof (weighted_total_between lo hi p Hp) as [Hlo Hhi].
  split.
  - apply Qle_shift_div_l; [exact Htw|exact Hlo].
  - apply Qle_shift_div_r; [exact Htw|exact Hhi].
Qed.

Lemma present_contributions (self : CombinedSignal.t) (P : Q -> Prop) :
  (forall c o, Fusion.contribution self c = Some o -> P o) ->
  Forall (fun co => P (snd co)) (Fusion.present self).
Proof.
  intros HP. unfold Fusion.present. apply Forall_forall.
  intros [c o] Hin. apply list_elem_of_omap in Hin as (c' & _ & Hc').
  destruct (Fusion.contribution self c') as [o'|] eqn:Hcontrib;
    simpl in Hc'; [|discriminate].
  injection Hc' as <- <-. simpl. exact (HP _ _ Hcontrib).
Qed.

(** X8: the consensus never leaves the range of its components: when
    every present contribution lies between the ordinals [lo] and [hi], so
    does the overall signal. *)
Theorem consensus_within_component_range (self : CombinedSignal.t) (lo hi : Z) :
  Fusion.present self <> [] ->
  (forall c o, Fusion.contribution self c = Some o ->
               inject_Z lo <= o <= inject_Z hi) ->
  exists self',
    calculate_combined_signal self = Py.Ok self'
    /\ (lo <= value (overall_signal self') <= hi)%Z.
Proof.
  intros Hne Hrange.
  destruct (calculate_combined_signal_spec self)
    as (self' & Hrun & _ & _ & _ & Hset).
  destruct (Hset Hne) as (Hov & _ & _).
  exists self'. split; [exact Hrun|].
  apply SignalStrength_of_value_inv in Hov. rewrite Hov.
  apply round_bounds. apply weighted_mean_between; [exact Hne|].
  apply (present_contributions self (fun o => inject_Z lo <= o <= inject_Z hi)).
  exact Hrange.
Qed.

Lemma consensus_within_component_range_witness :
  exists self',
    calculate_combined_signal Examples.no_market_data = Py.Ok self'
    /\ (2 <= value (overall_signal self') <= 5)%Z.
Proof.
  apply (consensus_within_component_range Examples.no_market_data 2 5).
  - vm_compute. discriminate.
  - intros [] o; vm_compute; intros [= <-]; split; discriminate.
Defined.

Lemma unanimous_mean (x : Q) (p : list (Fusion.Component * Q)) :
  p <> [] -> Forall (fun co => snd co == x) p -> Fusion.weighted_mean p == x.
Proof.
  intros Hne Hp.
  assert (Hbetween : Forall (fun co => x <= snd co <= x) p).
  { eapply Forall_impl; [exact Hp|]. intros co Hco. simpl in Hco. lra. }
  pose proof (weighted_mean_between x x p Hne Hbetween). lra.
Qed.

Lemma unanimous_deviations (x m : Q) (p : list (Fusion.Component * Q)) :
  m == x -> Forall (fun co => snd co == x) p ->
  Fusion.total (map (fun co => (snd co - m) ^ 2) p) == 0.
Proof.
  intros Hm. induction 1 as [|[c o] p Hco _ IH]; simpl in *; [reflexivity|].
  rewrite IH, Hco, Hm. ring.
Qed.

(** Agreement of all present components on one contribution. *)
Lemma agreement_scores (self : CombinedSignal.t) (x : Q) :
  Fusion.present self <> [] ->
  (forall c o, Fusion.contribution self c = Some o -> o == x) ->
  exists self',
    calculate_combined_signal self = Py.Ok self'
    /\ value (overall_signal self') = Py.round x
    /\ confidence self' == 1
    /\ risk_level self' = "low"%string.
Proof.
  intros Hne Hall.
  destruct (calculate_combined_signal_spec self)
    as (self' & Hrun & _ & _ & _ & Hset).
  destruct (Hset Hne) as (Hov & Hconf & Hrisk).
  pose proof (present_contributions self (fun o => o == x) Hall) as Hp.
  pose proof (unanimous_mean x _ Hne Hp) as Hmean.
  assert (Hc : confidence self' == 1).
  { rewrite Hconf. unfold Fusion.confidence, Fusion.population_variance.
    rewrite (unanimous_deviations x _ _ Hmean Hp).
    rewrite <- max_Qmax, <- min_Qmin.
    assert (Hone : 1 - 0 / inject_Z (Z.of_nat (length (Fusion.present self))) / 4 == 1).
    { unfold Qdiv. ring. }
    rewrite Hone. reflexivity. }
  exists self'. split; [exact Hrun|]. split; [|split; [exact Hc|]].
  - apply SignalStrength_of_value_inv in Hov. rewrite Hov, Hmean. reflexivity.
  - rewrite Hrisk. unfold risk_of_confidence.
    rewrite !(Qltb_proper _ _ Hc _ _ (Qeq_refl _)). reflexivity.
Qed.

(** X9: when all present components agree on one contribution [x] (in
    particular when a single component is present), the overall signal is
    the rounding of [x], the confidence is 1 and the risk level is
    "low". *)
Theorem agreement_gives_full_confidence (self : CombinedSignal.t) (x : Q) :
  Fusion.present self <> [] ->
  (forall c o, Fusion.contribution self c = Some o -> o == x) ->
  exists self',
    calculate_combined_signal self = Py.Ok self'
    /\ value (overall_signal self') = Py.round x
    /\ confidence self' == 1
    /\ risk_level self' = "low"%string.
Proof. exact (agreement_scores self x). Qed.

Lemma agreement_gives_full_confidence_witness :
  exists self',
    calculate_combined_signal Examples.rally_blank_technicals = Py.Ok self'
    /\ value (overall_signal self') = Py.round 5
    /\ confidence self' == 1
    /\ risk_level self' = "low"%string.
Proof.
  apply (agreement_gives_full_confidence Examples.rally_blank_technicals 5).
  - vm_compute. discriminate.
  - intros [] o; vm_compute; intros [= <-]; reflexivity.
Defined.

Lemma take_nil_iff {A : Type} (n : nat) (l : list A) :
  take (S n) l = [] <-> l = [].
Proof. destruct l; simpl; split; congruence. Qed.

(** X10: only the first five news items are scored: two signals that
    agree on market data, sentiment, technicals and the first five news
    items get the same news signal, overall signal, confidence and risk
    level, whatever news follows the fifth item. *)
Theorem only_first_five_news_items_count (a b : CombinedSignal.t) :
  market_data a = market_data b ->
  sentiment a = sentiment b ->
  technicals a = technicals b ->
  take 5 (news_items a) = take 5 (news_items b) ->
  news_items a <> [] ->
  exists a' b',
    calculate_combined_signal a = Py.Ok a'
    /\ calculate_combined_signal b = Py.Ok b'
    /\ news_signal a' = news_signal b'
    /\ overall_signal a' = overall_signal b'
    /\ confidence a' == confidence b'
    /\ risk_level a' = risk_level b'.
Proof.
  intros Hmd Hsent Htech Hfive Hnews.
  assert (Hnews_b : news_items b <> []).
  { intros Hnil. apply Hnews. apply (take_nil_iff 4). rewrite Hfive, Hnil.
    reflexivity. }
  assert (Hcontrib : forall c, Fusion.contribution a c = Fusion.contribution b c).
  { intros c. destruct c; unfold Fusion.contribution, news_scores, tech_signals;
      rewrite ?Hmd, ?Hsent, ?Htech, ?Hfive; try reflexivity.
    destruct (news_items a), (news_items b); try contradiction. reflexivity. }
  assert (Hpresent : Fusion.present a = Fusion.present b).
  { unfold Fusion.present. cbn [omap list_omap]. rewrite !Hcontrib. reflexivity. }
  assert (Hne : Fusion.present a <> []).
  { assert (Hn : exists o, Fusion.contribution a Fusion.News = Some o).
    { unfold Fusion.contribution. destruct (news_items a); [contradiction|].
      eexists. reflexivity. }
    destruct Hn as [o Hn].
    unfold Fusion.present. cbn [omap list_omap]. rewrite Hn.
    destruct (Fusion.contribution a Fusion.Price); discriminate. }
  destruct (calculate_combined_signal_spec a)
    as (a' & Hrun_a & _ & Hcomp_a & _ & Hset_a).
  destruct (calculate_combined_signal_spec b)
    as (b' & Hrun_b & _ & Hcomp_b & _ & Hset_b).
  destruct (Hset_a Hne) as (Hov_a & Hconf_a & Hrisk_a).
  destruct Hset_b as (Hov_b & Hconf_b & Hrisk_b); [rewrite <- Hpresent; exact Hne|].
  rewrite <- Hpresent in Hov_b, Hconf_b.
  assert (Hconf : confidence a' == confidence b') by (rewrite Hconf_a, Hconf_b; reflexivity).
  exists a', b'. split; [exact Hrun_a|]. split; [exact Hrun_b|].
  split; [|split; [congruence|split; [exact Hconf|]]].
  - pose proof (Hcomp_a Fusion.News) as Ha. pose proof (Hcomp_b Fusion.News) as Hb.
    rewrite <- Hcontrib in Hb. simpl in Ha, Hb.
    unfold Fusion.contribution in Ha, Hb.
    destruct (news_items a); [contradiction|]. simpl in Ha, Hb. congruence.
  - rewrite Hrisk_a, Hrisk_b. unfold risk_of_confidence.
    rewrite !(Qltb_proper _ _ Hconf _ _ (Qeq_refl _)). reflexivity.
Qed.

Lemma only_first_five_news_items_count_witness :
  exists a' b',
    calculate_combined_signal Examples.news_only = Py.Ok a'
    /\ calculate_combined_signal Examples.news_with_sixth = Py.Ok b'
    /\ news_signal a' = news_signal b'
    /\ overall_signal a' = overall_signal b'
    /\ confidence a' == confidence b'
    /\ risk_level a' = risk_level b'.
Proof.
  apply (only_first_five_news_items_count Examples.news_only
           Examples.news_with_sixth);
    [reflexivity|reflexivity|reflexivity|reflexivity|discriminate].
Defined.

End consensus_properties.

(** ** Warnings, opportunities and reasoning *)

Section annotations.

Import CombinedSignal.

Lemma critical_news_nil (self : CombinedSignal.t) :
  news_items self = [] -> critical_news_warning self = [].
Proof.
  intros Hnil. unfold critical_news_warning, critical_news. rewrite Hnil.
  reflexivity.
Qed.

Lemma market_data_block_notes (self : CombinedSignal.t) (signals weights : list Q) :
  warnings (market_data_block (self, signals, weights)).1.1
    = warnings self ++ volatility_warning self
  /\ opportunities (market_data_block (self, signals, weights)).1.1
     = opportunities self.
Proof.
  unfold market_data_block, volatility_warning.
  destruct (market_data self) as [md|]; simpl.
  - destruct (Py.Qltb 10 (Qabs (MarketData.change_24h md))); simpl;
      rewrite ?app_nil_r; split; reflexivity.
  - rewrite app_nil_r. split; reflexivity.
Qed.

Lemma sentiment_block_notes (self : CombinedSignal.t) (signals weights : list Q) :
  warnings (sentiment_block (self, signals, weights)).1.1 = warnings self
  /\ opportunities (sentiment_block (self, signals, weights)).1.1
     = opportunities self ++ sentiment_opportunity self.
Proof.
  unfold sentiment_block, sentiment_opportunity.
  destruct (sentiment self) as [ms|]; simpl.
  - destruct ((MarketSentiment.fear_greed_index ms <? 20)%Z
              || (80 <? MarketSentiment.fear_greed_index ms)%Z); simpl;
      rewrite ?app_nil_r; split; reflexivity.
  - rewrite app_nil_r. split; reflexivity.
Qed.

Lemma news_block_notes (self self' : CombinedSignal.t)
    (signals weights signals' weights' : list Q) :
  news_block (self, signals, weights) = Py.Ok (self', signals', weights') ->
  warnings self' = warnings self ++ critical_news_warning self
  /\ opportunities self' = opportunities self.
Proof.
  unfold news_block.
  destruct (news_items self) as [|item items] eqn:Hitems.
  - intros [= <- <- <-]. rewrite critical_news_nil by exact Hitems.
    rewrite app_nil_r. split; reflexivity.
  - destruct (news_scores self) as [|z zs] eqn:Hscores.
    + apply news_scores_nil in Hscores. congruence.
    + run_result.
      destruct (Py.truediv _ _) as [avg|]; [|discriminate].
      destruct (SignalStrength_of_value _) as [s|]; [|discriminate].
      unfold critical_news_warning. simpl.
      change (critical_news (set_news_signal s self)) with (critical_news self).
      destruct (critical_news self); intros [= <- <- <-]; simpl;
        rewrite ?app_nil_r; split; reflexivity.
Qed.

Lemma technical_block_notes (self self' : CombinedSignal.t)
    (signals weights signals' weights' : list Q) :
  technical_block (self, signals, weights) = Py.Ok (self', signals', weights') ->
  warnings self' = warnings self /\ opportunities self' = opportunities self.
Proof.
  unfold technical_block.
  destruct (technicals self) as [ti|]; [|intros [= <- <- <-]; split; reflexivity].
  destruct (tech_signals self ti) as [|z zs];
    [intros [= <- <- <-]; split; reflexivity|].
  run_result.
  destruct (Py.truediv _ _) as [avg|]; [|discriminate].
  destruct (SignalStrength_of_value _) as [s|]; [|discriminate].
  intros [= <- <- <-]. split; reflexivity.
Qed.

Lemma weighted_average_block_notes (fr : frame) (self' : CombinedSignal.t) :
  weighted_average_block fr = Py.Ok self' ->
  warnings self' = warnings fr.1.1 /\ opportunities self' = opportunities fr.1.1.
Proof.
  destruct fr as [[self signals] weights]. unfold weighted_average_block.
  destruct signals as [|s signals]; [intros [= <-]; split; reflexivity|].
  destruct weights as [|w weights]; [intros [= <-]; split; reflexivity|].
  run_result.
  destruct (Py.truediv _ _) as [avg|]; [|discriminate].
  destruct (SignalStrength_of_value _) as [o|]; [|discriminate].
  destruct (Py.truediv _ _) as [var|]; [|discriminate].
  intros [= <-]. split; reflexivity.
Qed.

Lemma notes_same_inputs (a b : CombinedSignal.t) :
  same_inputs a b ->
  volatility_warning a = volatility_warning b
  /\ critical_news_warning a = critical_news_warning b
  /\ sentiment_opportunity a = sentiment_opportunity b.
Proof.
  intros (_ & _ & Hmd & Hnews & Hsent & _).
  unfold volatility_warning, critical_news_warning, critical_news,
    sentiment_opportunity.
  rewrite Hmd, Hnews, Hsent. repeat split.
Qed.

(** What one run of [calculate_combined_signal] adds to the annotations:
    the warnings and the opportunity that the inputs call for, after those
    already there; the reasoning is written afresh. *)
Lemma calculate_combined_signal_notes (self : CombinedSignal.t) :
  exists self',
    calculate_combined_signal self = Py.Ok self'
    /\ same_inputs self self'
    /\ warnings self'
       = warnings self ++ volatility_warning self ++ critical_news_warning self
    /\ opportunities self' = opportunities self ++ sentiment_opportunity self
    /\ reasoning self' = reasoning (_generate_reasoning self').
Proof.
  destruct (calculate_combined_signal_spec self) as (self' & Hrun & Hin & _).
  exists self'. split; [exact Hrun|]. split; [exact Hin|].
  unfold calculate_combined_signal, component_blocks in Hrun.
  destruct (market_data_block_spec self [] []) as (s1 & E1 & Hi1 & _).
  pose proof (market_data_block_notes self [] []) as [W1 O1].
  rewrite E1 in Hrun, W1, O1. simpl in W1, O1.
  destruct (news_block_spec s1 (pushed_signals self Fusion.Price [])
              (pushed_weights self Fusion.Price [])) as (s2 & E2 & Hi2 & _).
  destruct (news_block_notes _ _ _ _ _ _ E2) as [W2 O2].
  rewrite E2 in Hrun. unfold mbind, result_bind, Py.bind in Hrun.
  destruct (sentiment_block_spec s2
              (pushed_signals s1 Fusion.News (pushed_signals self Fusion.Price []))
              (pushed_weights s1 Fusion.News (pushed_weights self Fusion.Price [])))
    as (s3 & E3 & Hi3 & _).
  pose proof (sentiment_block_notes s2
              (pushed_signals s1 Fusion.News (pushed_signals self Fusion.Price []))
              (pushed_weights s1 Fusion.News (pushed_weights self Fusion.Price [])))
    as [W3 O3].
  rewrite E3 in Hrun, W3, O3. simpl in W3, O3.
  destruct (technical_block _) as [[[s4 sg4] wt4]|] eqn:E4; [|discriminate].
  destruct (technical_block_notes _ _ _ _ _ _ E4) as [W4 O4].
  destruct (weighted_average_block _) as [s5|] eqn:E5; [|discriminate].
  destruct (weighted_average_block_notes _ _ E5) as [W5 O5]. simpl in W5, O5.
  injection Hrun as <-.
  destruct (notes_same_inputs _ _ Hi1) as (_ & C1 & S1).
  destruct (notes_same_inputs _ _ Hi2) as (_ & _ & S2).
  split; [|split].
  - simpl. rewrite W5, W4, W3, W2, W1, C1, <- app_assoc. reflexivity.
  - simpl. rewrite O5, O4, O3, O2, O1, S1, S2. reflexivity.
  - reflexivity.
Qed.

End annotations.

Section repeated_runs.

Import CombinedSignal.

Lemma weighted_average_block_scores (a b a' b' : CombinedSignal.t)
    (signals weights : list Q) :
  signals <> [] -> weights <> [] ->
  weighted_average_block (a, signals, weights) = Py.Ok a' ->
  weighted_average_block (b, signals, weights) = Py.Ok b' ->
  same_scores a' b'.
Proof.
  intros Hs Hw. rewrite !weighted_average_block_guarded by assumption.
  run_result.
  destruct (Py.truediv _ _) as [avg|]; [|discriminate].
  destruct (SignalStrength_of_value _) as [o|]; [|discriminate].
  destruct (Py.truediv _ _) as [var|]; [|discriminate].
  intros [= <-] [= <-]. frame_done.
Qed.

Lemma _generate_reasoning_ext (a b : CombinedSignal.t) :
  same_inputs a b -> same_scores a b ->
  reasoning (_generate_reasoning a) = reasoning (_generate_reasoning b).
Proof.
  intros (_ & _ & Hmd & Hnews & Hsent & Htech) (Ho & Hc & _).
  unfold _generate_reasoning. simpl. rewrite Ho, Hc, Hmd, Hnews, Hsent, Htech.
  reflexivity.
Qed.

Lemma rounds_to_twice (o : option Q) (s0 s1 s2 : SignalStrength) :
  rounds_to o s0 s1 -> rounds_to o s1 s2 -> s2 = s1.
Proof.
  destruct o as [x|]; simpl; [|intros _ H; exact H].
  intros H1 H2. congruence.
Qed.

Lemma present_same_inputs (a b : CombinedSignal.t) :
  same_inputs a b -> Fusion.present a = Fusion.present b.
Proof.
  intros Hin. unfold Fusion.present. cbn [omap list_omap].
  rewrite !(contribution_same_inputs _ _ _ Hin). reflexivity.
Qed.

(** The scores after a run are those the weighted average sets from the
    present contributions, whatever else the signal held. *)
Lemma scores_same_inputs (a b a' b' : CombinedSignal.t) :
  same_inputs a b -> Fusion.present a <> [] ->
  calculate_combined_signal a = Py.Ok a' ->
  calculate_combined_signal b = Py.Ok b' ->
  same_scores a' b'.
Proof.
  intros Hin Hne Ha Hb.
  unfold calculate_combined_signal in Ha, Hb.
  destruct (component_blocks_spec a) as (a1 & Ea & _).
  destruct (component_blocks_spec b) as (b1 & Eb & _).
  rewrite <- (present_same_inputs _ _ Hin) in Eb.
  rewrite Ea in Ha. rewrite Eb in Hb.
  unfold mbind, result_bind, Py.bind in Ha, Hb.
  destruct (weighted_average_block (a1, _, _)) as [a2|] eqn:Wa; [|discriminate].
  destruct (weighted_average_block (b1, _, _)) as [b2|] eqn:Wb; [|discriminate].
  injection Ha as <-. injection Hb as <-.
  assert (Hs : same_scores a2 b2).
  { apply (weighted_average_block_scores _ _ _ _ _ _) with (3 := Wa) (4 := Wb);
      destruct (Fusion.present a); try contradiction; discriminate. }
  destruct Hs as (Ho & Hc & Hr). unfold same_scores. simpl.
  repeat split; assumption.
Qed.

(** X11: a second run of [calculate_combined_signal] on its own result
    leaves the scores, the four component signals and the reasoning as the
    first run set them, and appends to the warnings and to the
    opportunities, once more, what the first run appended. *)
Theorem second_run_repeats_annotations (self : CombinedSignal.t) :
  exists self' self'' added_warnings added_opportunities,
    calculate_combined_signal self = Py.Ok self'
    /\ calculate_combined_signal self' = Py.Ok self''
    /\ overall_signal self'' = overall_signal self'
    /\ confidence self'' = confidence self'
    /\ risk_level self'' = risk_level self'
    /\ price_signal self'' = price_signal self'
    /\ news_signal self'' = news_signal self'
    /\ sentiment_signal self'' = sentiment_signal self'
    /\ technical_signal self'' = technical_signal self'
    /\ reasoning self'' = reasoning self'
    /\ warnings self' = warnings self ++ added_warnings
    /\ warnings self'' = warnings self ++ added_warnings ++ added_warnings
    /\ opportunities self' = opportunities self ++ added_opportunities
    /\ opportunities self''
       = opportunities self ++ added_opportunities ++ added_opportunities.
Proof.
  destruct (calculate_combined_signal_notes self)
    as (s1 & Hrun1 & Hin1 & W1 & O1 & R1).
  destruct (calculate_combined_signal_notes s1)
    as (s2 & Hrun2 & Hin2 & W2 & O2 & R2).
  destruct (calculate_combined_signal_spec self)
    as (s1' & Hrun1' & _ & Hcomp1 & _ & _).
  destruct (calculate_combined_signal_spec s1)
    as (s2' & Hrun2' & _ & Hcomp2 & Hkeep2 & _).
  rewrite Hrun1 in Hrun1'. injection Hrun1' as <-.
  rewrite Hrun2 in Hrun2'. injection Hrun2' as <-.
  assert (Hscores : same_scores s1 s2).
  { destruct (Fusion.present self) as [|co p] eqn:Hp.
    - apply Hkeep2. rewrite <- (present_same_inputs _ _ Hin1). exact Hp.
    - apply (scores_same_inputs self s1 s1 s2 Hin1);
        [rewrite Hp; discriminate|exact Hrun1|exact Hrun2]. }
  assert (Hsignals : forall c, component_signal c s2 = component_signal c s1).
  { intros c. pose proof (Hcomp1 c) as H1. pose proof (Hcomp2 c) as H2.
    rewrite <- (contribution_same_inputs _ _ _ Hin1) in H2.
    exact (rounds_to_twice _ _ _ _ H1 H2). }
  destruct (notes_same_inputs _ _ Hin1) as (V & C & S).
  destruct Hscores as (Ho & Hc & Hr).
  exists s1, s2, (volatility_warning self ++ critical_news_warning self),
    (sentiment_opportunity self).
  split; [exact Hrun1|]. split; [exact Hrun2|].
  split; [symmetry; exact Ho|]. split; [symmetry; exact Hc|].
  split; [symmetry; exact Hr|].
  split; [exact (Hsignals Fusion.Price)|]. split; [exact (Hsignals Fusion.News)|].
  split; [exact (Hsignals Fusion.Sentiment)|].
  split; [exact (Hsignals Fusion.Technical)|].
  split.
  { rewrite R2, R1. symmetry. apply _generate_reasoning_ext; [exact Hin2|].
    repeat split; assumption. }
  split; [exact W1|]. split.
  { rewrite W2, W1, <- V, <- C, <- !app_assoc. reflexivity. }
  split; [exact O1|].
  rewrite O2, O1, <- S, <- !app_assoc. reflexivity.
Qed.

Lemma strong_price_signal (md : MarketData.t) :
  Py.Qltb 10 (Qabs (MarketData.change_24h md)) = true
  <-> MarketData.get_signal_strength md = STRONG_BUY
      \/ MarketData.get_signal_strength md = STRONG_SELL.
Proof.
  rewrite Qltb_lt. unfold MarketData.get_signal_strength.
  assert (Habs : 10 < Qabs (MarketData.change_24h md)
                 <-> 10 < MarketData.change_24h md
                     \/ MarketData.change_24h md < -10).
  { split.
    - intros H.
      destruct (Qlt_le_dec 10 (MarketData.change_24h md)) as [|Hle]; [left; assumption|].
      destruct (Qlt_le_dec (MarketData.change_24h md) (-10)) as [|Hge]; [right; assumption|].
      exfalso. apply (Qlt_not_le _ _ H). apply Qabs_Qle_condition. split; lra.
    - intros [H|H].
      + eapply Qlt_le_trans; [exact H|apply Qle_Qabs].
      + rewrite <- Qabs_opp. eapply Qlt_le_trans; [|apply Qle_Qabs]. lra. }
  rewrite Habs.
  split_comparisons; order_facts; split;
    intros [H|H]; try discriminate; try lra; auto.
Qed.

Lemma strong_sentiment_signal (ms : MarketSentiment.t) :
  (MarketSentiment.fear_greed_index ms <? 20)%Z
  || (80 <? MarketSentiment.fear_greed_index ms)%Z = true
  <-> MarketSentiment.get_contrarian_signal ms = STRONG_BUY
      \/ MarketSentiment.get_contrarian_signal ms = STRONG_SELL.
Proof.
  unfold MarketSentiment.get_contrarian_signal.
  split_comparisons; simpl; split; intros H;
    first [reflexivity | discriminate | (left; reflexivity) | (right; reflexivity)
          | destruct H; discriminate].
Qed.

(** X12: the annotations agree with the component signals: a run adds a
    high-volatility warning exactly when market data is present and the
    price signal it sets is STRONG_BUY or STRONG_SELL, and an
    extreme-sentiment opportunity exactly when a sentiment record is present
    and the sentiment signal it sets is STRONG_BUY or STRONG_SELL. *)
Theorem annotations_match_strong_signals (self : CombinedSignal.t) :
  exists self' added_warnings added_opportunities,
    calculate_combined_signal self = Py.Ok self'
    /\ warnings self' = warnings self ++ added_warnings
    /\ opportunities self' = opportunities self ++ added_opportunities
    /\ ((exists change, High_volatility change ∈ added_warnings)
        <-> market_data self <> None
            /\ (price_signal self' = STRONG_BUY
                \/ price_signal self' = STRONG_SELL))
    /\ ((exists label, Extreme_sentiment label ∈ added_opportunities)
        <-> sentiment self <> None
            /\ (sentiment_signal self' = STRONG_BUY
                \/ sentiment_signal self' = STRONG_SELL)).
Proof.
  destruct (calculate_combined_signal_notes self)
    as (s1 & Hrun & _ & W & O & _).
  destruct (calculate_combined_signal_spec self)
    as (s1' & Hrun' & _ & Hcomp & _ & _).
  rewrite Hrun in Hrun'. injection Hrun' as <-.
  exists s1, (volatility_warning self ++ critical_news_warning self),
    (sentiment_opportunity self).
  split; [exact Hrun|]. split; [exact W|]. split; [exact O|]. split.
  - pose proof (Hcomp Fusion.Price) as Hp. simpl in Hp.
    unfold volatility_warning, critical_news_warning.
    destruct (market_data self) as [md|]; simpl in Hp.
    + rewrite round_inject_Z, SignalStrength_of_value_value in Hp.
      injection Hp as <-. rewrite <- strong_price_signal.
      destruct (Py.Qltb 10 (Qabs (MarketData.change_24h md))); split.
      * intros _. split; [discriminate|reflexivity].
      * intros _. eexists. apply list_elem_of_here.
      * intros [change Hin]. exfalso. simpl in Hin.
        destruct (critical_news self); [inversion Hin|].
        apply list_elem_of_singleton in Hin. discriminate.
      * intros [_ ?]. discriminate.
    + split; [|intros [Hno _]; contradiction].
      intros [change Hin]. exfalso. simpl in Hin.
      destruct (critical_news self); [inversion Hin|].
      apply list_elem_of_singleton in Hin. discriminate.
  - pose proof (Hcomp Fusion.Sentiment) as Hs. simpl in Hs.
    unfold sentiment_opportunity.
    destruct (sentiment self) as [ms|]; simpl in Hs.
    + rewrite round_inject_Z, SignalStrength_of_value_value in Hs.
      injection Hs as <-. rewrite <- strong_sentiment_signal.
      destruct ((MarketSentiment.fear_greed_index ms <? 20)%Z
                || (80 <? MarketSentiment.fear_greed_index ms)%Z); split.
      * intros _. split; [discriminate|reflexivity].
      * intros _. eexists. apply list_elem_of_here.
      * intros [label Hin]. inversion Hin.
      * intros [_ ?]. discriminate.
    + split; [|intros [Hno _]; contradiction].
      intros [label Hin]. inversion Hin.
Qed.

End repeated_runs.

(** ** Rate limits *)

Section rate_limit_properties.

Import CryptoDataPipeline.

(** X13: a service without an entry in the rate-limit table is never
    limited and is not counted: the check grants it and the increment
    leaves the pipeline as it is; for a service with an entry the increment
    touches no other entry, and neither the quota nor the window. *)
Theorem rate_limit_table_frame (service : string) (self : CryptoDataPipeline.t) :
  (rate_limits self !! service = None ->
   _check_rate_limit service self = true
   /\ _increment_rate_limit service self = self)
  /\ (forall other, other <> service ->
        rate_limits (_increment_rate_limit service self) !! other
        = rate_limits self !! other)
  /\ (forall limit, rate_limits self !! service = Some limit ->
        rate_limits (_increment_rate_limit service self) !! service
        = Some (mkRateLimit (calls limit + 1) (max limit) (window limit)))
  /\ cache (_increment_rate_limit service self) = cache self.
Proof.
  unfold _check_rate_limit, _increment_rate_limit.
  split; [|split; [|split]].
  - intros ->. split; reflexivity.
  - intros other Hother. destruct (rate_limits self !! service); [|reflexivity].
    simpl. apply lookup_insert_ne. congruence.
  - intros limit ->. simpl. apply lookup_insert_eq.
  - destruct (rate_limits self !! service); reflexivity.
Qed.

Lemma increment_within_quota (service other : string)
    (self : CryptoDataPipeline.t) :
  other <> service -> within_quota other self ->
  within_quota other (_increment_rate_limit service self).
Proof.
  intros Hne Hq limit. unfold _increment_rate_limit.
  destruct (rate_limits self !! service); [|apply Hq].
  simpl. rewrite lookup_insert_ne by congruence. apply Hq.
Qed.

Lemma granted_increment_within_quota (service : string)
    (self : CryptoDataPipeline.t) :
  _check_rate_limit service self = true ->
  within_quota service (_increment_rate_limit service self).
Proof.
  unfold _check_rate_limit, _increment_rate_limit, within_quota.
  destruct (rate_limits self !! service) as [l|] eqn:Hl.
  - intros Hlt%Z.ltb_lt limit. simpl. rewrite lookup_insert_eq.
    intros [= <-]. simpl. lia.
  - intros _ limit. rewrite Hl. discriminate.
Qed.

Lemma collect_market_data_within_quota (w : World) (symbol : string)
    (self : CryptoDataPipeline.t) :
  within_quota "polygon" self -> within_quota "coingecko" self ->
  within_quota "polygon" (_collect_market_data w symbol self).1
  /\ within_quota "coingecko" (_collect_market_data w symbol self).1.
Proof.
  intros Hp Hc. unfold _collect_market_data.
  destruct (key_configured (polygon_key self) && _check_rate_limit "polygon" self)
    eqn:Hgate.
  - apply andb_true_iff in Hgate as [_ Hcheck].
    unfold _fetch_polygon_data. destruct (polygon w symbol) as [md|]; simpl.
    + split.
      * apply granted_increment_within_quota. exact Hcheck.
      * apply increment_within_quota; [discriminate|]. exact Hc.
    + destruct (_check_rate_limit "coingecko" self) eqn:Hcheck2;
        [|split; assumption].
      unfold _fetch_coingecko_data. destruct (coingecko w symbol) as [md|]; simpl.
      * split; [apply increment_within_quota; [discriminate|exact Hp]|].
        apply granted_increment_within_quota. exact Hcheck2.
      * split; assumption.
  - destruct (_check_rate_limit "coingecko" self) eqn:Hcheck2;
      [|split; assumption].
    unfold _fetch_coingecko_data. destruct (coingecko w symbol) as [md|]; simpl.
    + split; [apply increment_within_quota; [discriminate|exact Hp]|].
      apply granted_increment_within_quota. exact Hcheck2.
    + split; assumption.
Qed.

Lemma collect_news_rate_limits (w : World) (symbol : string)
    (self : CryptoDataPipeline.t) :
  rate_limits (_collect_news w symbol self).1 = rate_limits self.
Proof.
  unfold _collect_news.
  destruct (cached_if_fresh News _ 1800 (now w) self); [reflexivity|].
  destruct (cryptocompare w symbol); reflexivity.
Qed.

Lemma collect_sentiment_within_quota (w : World) (self : CryptoDataPipeline.t)
    (service : string) :
  service <> "alternative"%string -> within_quota service self ->
  within_quota service (_collect_sentiment w self).1.
Proof.
  intros Hne Hq. unfold _collect_sentiment.
  destruct (cached_if_fresh Sentiment _ 3600 (now w) self); [exact Hq|].
  destruct (alternative w); [|exact Hq]. simpl.
  apply increment_within_quota; [congruence|]. exact Hq.
Qed.

Lemma process_symbol_within_quota (world : string -> World) (symbol : string)
    (self : CryptoDataPipeline.t) :
  within_quota "polygon" self /\ within_quota "coingecko" self ->
  within_quota "polygon" (process_symbol world symbol self).1
  /\ within_quota "coingecko" (process_symbol world symbol self).1.
Proof.
  intros [Hp Hc]. unfold process_symbol.
  destruct (collect_market_data_within_quota (world symbol) symbol self Hp Hc)
    as [Hp1 Hc1].
  destruct (_collect_market_data (world symbol) symbol self) as [self1 md].
  simpl in Hp1, Hc1.
  pose proof (collect_news_rate_limits (world symbol) symbol self1) as Hn.
  destruct (_collect_news (world symbol) symbol self1) as [self2 items].
  simpl in Hn.
  assert (Hp2 : within_quota "polygon" self2)
    by (intros l; rewrite Hn; apply Hp1).
  assert (Hc2 : within_quota "coingecko" self2)
    by (intros l; rewrite Hn; apply Hc1).
  pose proof (collect_sentiment_within_quota (world symbol) self2 "polygon"
                ltac:(discriminate) Hp2) as Hp3.
  pose proof (collect_sentiment_within_quota (world symbol) self2 "coingecko"
                ltac:(discriminate) Hc2) as Hc3.
  destruct (_collect_sentiment (world symbol) self2) as [self3 ms].
  simpl in *. split; assumption.
Qed.

Lemma collect_loop_invariant (P : CryptoDataPipeline.t -> Prop)
    (body : string -> CryptoDataPipeline.t
            -> CryptoDataPipeline.t * Py.result CombinedSignal.t)
    (symbols : list string) (self : CryptoDataPipeline.t)
    (acc : gmap string CombinedSignal.t) :
  (forall symbol s, P s -> P (body symbol s).1) ->
  P self -> P (collect_loop body symbols self acc).1.
Proof.
  intros Hbody. revert self acc.
  induction symbols as [|symbol symbols IH]; intros self acc HP; [exact HP|].
  simpl. pose proof (Hbody symbol self HP) as H1.
  destruct (body symbol self) as [self1 [combined|e]]; simpl in H1;
    apply IH; exact H1.
Qed.

(** X14: the two market-data providers stay within their quota: if the
    Polygon and CoinGecko counters do not exceed their maximum before
    [collect_all_data], they do not exceed it afterwards, for any list of
    symbols and whatever the providers answer. *)
Theorem market_data_quota_is_kept (world : string -> World)
    (symbols : list string) (self : CryptoDataPipeline.t) :
  within_quota "polygon" self -> within_quota "coingecko" self ->
  within_quota "polygon" (collect_all_data world symbols self).1
  /\ within_quota "coingecko" (collect_all_data world symbols self).1.
Proof.
  intros Hp Hc. unfold collect_all_data.
  apply (collect_loop_invariant
           (fun s => within_quota "polygon" s /\ within_quota "coingecko" s)).
  - intros symbol s. apply process_symbol_within_quota.
  - split; assumption.
Qed.

Lemma market_data_quota_is_kept_witness :
  within_quota "polygon"
    (collect_all_data (fun _ => PipelineExamples.news_flowing)
       ["BTC"; "ETH"]%string PipelineExamples.fresh).1
  /\ within_quota "coingecko"
       (collect_all_data (fun _ => PipelineExamples.news_flowing)
          ["BTC"; "ETH"]%string PipelineExamples.fresh).1.
Proof.
  apply (market_data_quota_is_kept (fun _ => PipelineExamples.news_flowing)
           ["BTC"; "ETH"]%string PipelineExamples.fresh);
    intros limit Hlimit; vm_compute in Hlimit; injection Hlimit as <-;
    simpl; lia.
Defined.

(** X15: the sentiment provider is counted but not gated:
    [_collect_sentiment] asks it without a rate-limit check, so with no fresh
    cache entry a successful fetch pushes the counter beyond a quota that is
    already used up. *)
Theorem sentiment_quota_is_not_enforced (w : World)
    (self : CryptoDataPipeline.t) (limit : RateLimit) (ms : MarketSentiment.t) :
  rate_limits self !! "alternative"%string = Some limit ->
  (max limit <= calls limit)%Z ->
  cached_if_fresh Sentiment "sentiment_global" 3600 (now w) self = None ->
  alternative w = Some ms ->
  _check_rate_limit "alternative" self = false
  /\ (_collect_sentiment w self).2 = Some ms
  /\ rate_limits (_collect_sentiment w self).1 !! "alternative"%string
     = Some (mkRateLimit (calls limit + 1) (max limit) (window limit))
  /\ ~ within_quota "alternative" (_collect_sentiment w self).1.
Proof.
  intros Hl Hfull Hmiss Hlive.
  assert (Hafter : rate_limits (_collect_sentiment w self).1 !! "alternative"%string
                   = Some (mkRateLimit (calls limit + 1) (max limit) (window limit))).
  { unfold _collect_sentiment. rewrite Hmiss, Hlive. simpl.
    unfold _increment_rate_limit. simpl. rewrite Hl. simpl.
    apply lookup_insert_eq. }
  split; [|split; [|split; [exact Hafter|]]].
  - unfold _check_rate_limit. rewrite Hl. apply Z.ltb_ge. exact Hfull.
  - unfold _collect_sentiment. rewrite Hmiss, Hlive. reflexivity.
  - intros Hq. specialize (Hq _ Hafter). simpl in Hq. lia.
Qed.

Lemma sentiment_quota_is_not_enforced_witness :
  _check_rate_limit "alternative" (PipelineExamples.exhausted "alternative") = false
  /\ (_collect_sentiment (PipelineExamples.fear_reported 0)
        (PipelineExamples.exhausted "alternative")).2
     = alternative (PipelineExamples.fear_reported 0)
  /\ rate_limits (_collect_sentiment (PipelineExamples.fear_reported 0)
                    (PipelineExamples.exhausted "alternative")).1
       !! "alternative"%string
     = Some (mkRateLimit (30 + 1) 30 60)
  /\ ~ within_quota "alternative"
         (_collect_sentiment (PipelineExamples.fear_reported 0)
            (PipelineExamples.exhausted "alternative")).1.
Proof.
  apply (sentiment_quota_is_not_enforced (PipelineExamples.fear_reported 0)
           (PipelineExamples.exhausted "alternative") (mkRateLimit 30 30 60));
    [reflexivity|simpl; lia|reflexivity|reflexivity].
Defined.

End rate_limit_properties.

(** ** The cache *)

Section cache_properties.

Import CryptoDataPipeline.

Lemma sub_cache_set_other (category other : Category)
    (d : gmap string (Entry (data_of category))) (cache : Cache) :
  other <> category ->
  sub_cache other (set_sub_cache category d cache) = sub_cache other cache.
Proof. destruct category, other; try reflexivity; contradiction. Qed.

(** X16: a write to the cache replaces the entry of its key wholesale and
    touches nothing else: a second write to the same key leaves only the
    second record, every other key of the category and every key of the
    other categories read as before, and the rate-limit table is
    unchanged. *)
Theorem update_cache_replaces_one_entry (category : Category) (key : string)
    (first second : data_of category) (t1 t2 : Z)
    (self : CryptoDataPipeline.t) :
  sub_cache category
    (cache (_update_cache category key second t2
              (_update_cache category key first t1 self))) !! key
  = Some (mkEntry second t2)
  /\ (forall key', key' <> key ->
        sub_cache category (cache (_update_cache category key first t1 self)) !! key'
        = sub_cache category (cache self) !! key')
  /\ (forall other, other <> category ->
        sub_cache other (cache (_update_cache category key first t1 self))
        = sub_cache other (cache self))
  /\ rate_limits (_update_cache category key first t1 self) = rate_limits self.
Proof.
  split; [apply lookup_after_update|]. split; [|split; [|reflexivity]].
  - intros key' Hne. unfold _update_cache. simpl. rewrite sub_cache_set.
    apply lookup_insert_ne. congruence.
  - intros other Hne. unfold _update_cache. simpl.
    apply sub_cache_set_other. exact Hne.
Qed.

Lemma seconds_periodic (delta k : Z) :
  seconds (delta + k * 86400000000) = seconds delta.
Proof. unfold seconds. rewrite Z.mod_add by lia. reflexivity. Qed.

(** X17: the freshness test sees the age of an entry only modulo one day:
    a read [k] whole days later (or earlier) gives the same answer, hit or
    miss, for every category, key and window. *)
Theorem freshness_is_periodic_in_days (category : Category) (key : string)
    (ttl now k : Z) (self : CryptoDataPipeline.t) :
  cached_if_fresh category key ttl (now + k * 86400000000) self
  = cached_if_fresh category key ttl now self.
Proof.
  unfold cached_if_fresh.
  destruct (sub_cache category (cache self) !! key) as [cached|]; [|reflexivity].
  replace (now + k * 86400000000 - timestamp cached)%Z
    with (now - timestamp cached + k * 86400000000)%Z by lia.
  rewrite seconds_periodic. reflexivity.
Qed.

Lemma cached_if_fresh_increment (category : Category) (key service : string)
    (now ttl : Z) (self : CryptoDataPipeline.t) :
  cached_if_fresh category key ttl now (_increment_rate_limit service self)
  = cached_if_fresh category key ttl now self.
Proof.
  unfold cached_if_fresh, _increment_rate_limit.
  destruct (rate_limits self !! service); reflexivity.
Qed.

(** X18: the market-data cache is written through: when a call of
    [_collect_market_data] obtains a record from a live provider, a later
    call less than 300 seconds afterwards, with both providers failing,
    returns that same record. *)
Theorem live_record_serves_later_failures (w1 w2 : World) (symbol : string)
    (self : CryptoDataPipeline.t) (md : MarketData.t) :
  key_configured (polygon_key self) && _check_rate_limit "polygon" self = true
  /\ polygon w1 symbol = Some md
  \/ (key_configured (polygon_key self) && _check_rate_limit "polygon" self = false
      \/ polygon w1 symbol = None)
     /\ _check_rate_limit "coingecko" self = true
     /\ coingecko w1 symbol = Some md ->
  polygon w2 symbol = None -> coingecko w2 symbol = None ->
  (0 <= now w2 - now w1 < 300 * 1000000)%Z ->
  (_collect_market_data w1 symbol self).2 = Some md
  /\ (_collect_market_data w2 symbol (_collect_market_data w1 symbol self).1).2
     = Some md.
Proof.
  intros Hlive Hdown1 Hdown2 Hsoon.
  assert (Hfirst : _collect_market_data w1 symbol self
                   = (_increment_rate_limit "polygon"
                        (_update_cache Market_data ("market_" +:+ symbol) md
                           (now w1) self), Some md)
                   \/ _collect_market_data w1 symbol self
                      = (_increment_rate_limit "coingecko"
                           (_update_cache Market_data ("market_" +:+ symbol) md
                              (now w1) self), Some md)).
  { unfold _collect_market_data, _fetch_polygon_data, _fetch_coingecko_data.
    destruct Hlive as [[Hgate Hp] | (Hskip & Hcheck & Hc)].
    - left. rewrite Hgate, Hp. reflexivity.
    - right.
      assert (Hgate : (if key_configured (polygon_key self)
                          && _check_rate_limit "polygon" self
                       then match polygon w1 symbol with
                            | Some md0 =>
                                (_increment_rate_limit "polygon"
                                   (_update_cache Market_data ("market_" +:+ symbol)
                                      md0 (now w1) self), Some md0)
                            | None => (self, None)
                            end
                       else (self, None)) = (self, None)).
      { destruct Hskip as [-> | ->]; [reflexivity|].
        destruct (_ && _); reflexivity. }
      rewrite Hgate, Hcheck, Hc. reflexivity. }
  assert (Hsecond : forall service,
            (_collect_market_data w2 symbol
               (_increment_rate_limit service
                  (_update_cache Market_data ("market_" +:+ symbol) md
                     (now w1) self))).2 = Some md).
  { intros service.
    unfold _collect_market_data, _fetch_polygon_data, _fetch_coingecko_data.
    rewrite Hdown1, Hdown2.
    set (s1 := _increment_rate_limit service _).
    assert (Hhit : cached_if_fresh Market_data ("market_" +:+ symbol) 300
                     (now w2) s1 = Some md).
    { unfold s1. rewrite cached_if_fresh_increment.
      apply fresh_record_is_returned; lia. }
    destruct (key_configured (polygon_key s1) && _check_rate_limit "polygon" s1);
      destruct (_check_rate_limit "coingecko" s1); simpl; exact Hhit. }
  destruct Hfirst as [-> | ->]; simpl; split; try reflexivity; apply Hsecond.
Qed.

Lemma live_record_serves_later_failures_witness :
  (_collect_market_data PipelineExamples.news_flowing "BTC"
     PipelineExamples.fresh).2 = Some PipelineExamples.btc_quote
  /\ (_collect_market_data
        (PipelineExamples.providers_down (100 * PipelineExamples.one_second)) "BTC"
        (_collect_market_data PipelineExamples.news_flowing "BTC"
           PipelineExamples.fresh).1).2
     = Some PipelineExamples.btc_quote.
Proof.
  apply (live_record_serves_later_failures PipelineExamples.news_flowing
           (PipelineExamples.providers_down (100 * PipelineExamples.one_second))
           "BTC" PipelineExamples.fresh PipelineExamples.btc_quote).
  - right. split; [right; reflexivity|]. split; reflexivity.
  - reflexivity.
  - reflexivity.
  - vm_compute. split; [discriminate|reflexivity].
Defined.

(** X19: an answer of the news feed is cached as it is, an empty one
    included: when [_collect_news] finds no fresh entry and the request
    completes with a list of items (none when the status is not 200), every
    call within the next 1800 seconds returns that list and leaves the
    pipeline unchanged, whatever the feed would answer then. *)
Theorem news_answer_is_cached_even_empty (w1 w2 : World) (symbol : string)
    (self : CryptoDataPipeline.t) (items : list NewsItem.t) :
  cached_if_fresh News ("news_" +:+ symbol) 1800 (now w1) self = None ->
  cryptocompare w1 symbol = News_fetched items ->
  (0 <= now w2 - now w1 < 1800 * 1000000)%Z ->
  (_collect_news w1 symbol self).2 = items
  /\ _collect_news w2 symbol (_collect_news w1 symbol self).1
     = ((_collect_news w1 symbol self).1, items).
Proof.
  intros Hmiss Hfetched Hsoon. unfold _collect_news at 1 3 4.
  rewrite Hmiss, Hfetched. simpl. split; [reflexivity|].
  unfold _collect_news.
  rewrite fresh_record_is_returned by lia. reflexivity.
Qed.

Lemma news_answer_is_cached_even_empty_witness :
  (_collect_news (PipelineExamples.fear_reported 0) "BTC"
     PipelineExamples.fresh).2 = []
  /\ _collect_news PipelineExamples.news_flowing "BTC"
       (_collect_news (PipelineExamples.fear_reported 0) "BTC"
          PipelineExamples.fresh).1
     = ((_collect_news (PipelineExamples.fear_reported 0) "BTC"
           PipelineExamples.fresh).1, []).
Proof.
  apply (news_answer_is_cached_even_empty (PipelineExamples.fear_reported 0)
           PipelineExamples.news_flowing "BTC" PipelineExamples.fresh []).
  - reflexivity.
  - reflexivity.
  - vm_compute. split; [discriminate|reflexivity].
Defined.

End cache_properties.

Section more_cache_properties.

Import CryptoDataPipeline.

(** X20: during the first day after a write, with no write in between, a
    read returns the stored record exactly while fewer than [ttl] whole
    seconds have elapsed, and is a miss from then on. *)
Theorem record_read_back_within_window (category : Category) (key : string)
    (record : data_of category) (written now ttl : Z)
    (self : CryptoDataPipeline.t) :
  (0 <= now - written < 86400000000)%Z ->
  (now - written < ttl * 1000000 ->
   cached_if_fresh category key ttl now
     (_update_cache category key record written self) = Some record)%Z
  /\ (ttl * 1000000 <= now - written ->
      cached_if_fresh category key ttl now
        (_update_cache category key record written self) = None)%Z.
Proof.
  intros Hday. rewrite cached_if_fresh_after_update.
  rewrite seconds_within_a_day by exact Hday.
  split; intros Hage.
  - assert (H : ((now - written) `div` 1000000 <? ttl)%Z = true).
    { apply Z.ltb_lt. apply Z.div_lt_upper_bound; lia. }
    rewrite H. reflexivity.
  - assert (H : ((now - written) `div` 1000000 <? ttl)%Z = false).
    { apply Z.ltb_ge. apply Z.div_le_lower_bound; lia. }
    rewrite H. reflexivity.
Qed.

Lemma record_read_back_within_window_witness :
  (299 * PipelineExamples.one_second - 0 < 300 * 1000000 ->
   cached_if_fresh Market_data "market_BTC" 300 (299 * PipelineExamples.one_second)
     (_update_cache Market_data "market_BTC" PipelineExamples.btc_quote 0
        PipelineExamples.fresh)
   = Some PipelineExamples.btc_quote)%Z
  /\ (300 * 1000000 <= 299 * PipelineExamples.one_second - 0 ->
      cached_if_fresh Market_data "market_BTC" 300 (299 * PipelineExamples.one_second)
        (_update_cache Market_data "market_BTC" PipelineExamples.btc_quote 0
           PipelineExamples.fresh)
      = None)%Z.
Proof.
  apply (record_read_back_within_window Market_data "market_BTC"
           PipelineExamples.btc_quote 0 (299 * PipelineExamples.one_second) 300
           PipelineExamples.fresh).
  vm_compute. split; [discriminate|reflexivity].
Defined.

End more_cache_properties.

(** ** The health check *)

Section health.

Import CryptoDataPipeline.

Lemma cached_if_fresh_update_other (category other : Category)
    (key key' : string) (record : data_of other) (written now ttl : Z)
    (self : CryptoDataPipeline.t) :
  category <> other ->
  cached_if_fresh category key ttl now
    (_update_cache other key' record written self)
  = cached_if_fresh category key ttl now self.
Proof.
  intros Hne. unfold cached_if_fresh, _update_cache. simpl.
  rewrite sub_cache_set_other by exact Hne. reflexivity.
Qed.

Lemma health_of_cases {A : Type} (test_data : option A) :
  health_of test_data = "healthy"%string \/ health_of test_data = "unhealthy"%string.
Proof. destruct test_data; [left|right]; reflexivity. Qed.

(** X21: [health_check] reports CoinGecko and the sentiment source always,
    Polygon exactly when a key is configured, and only ever as "healthy" or
    "unhealthy", never "error"; the sentiment probe goes through the cache,
    so a fresh cached record is reported as "healthy" whatever the source
    would answer. *)
Theorem health_check_statuses (w : World) (self : CryptoDataPipeline.t) :
  (forall source status,
     health_sources (health_check w self).2 !! source = Some status ->
     status = "healthy"%string \/ status = "unhealthy"%string)
  /\ is_Some (health_sources (health_check w self).2 !! "coingecko"%string)
  /\ is_Some (health_sources (health_check w self).2 !! "alternative"%string)
  /\ (is_Some (health_sources (health_check w self).2 !! "polygon"%string)
      <-> key_configured (polygon_key self) = true)
  /\ (forall ms,
        cached_if_fresh Sentiment "sentiment_global" 3600 (now w) self = Some ms ->
        health_sources (health_check w self).2 !! "alternative"%string
        = Some "healthy"%string).
Proof.
  unfold health_check.
  destruct (key_configured (polygon_key self)) eqn:Hkey.
  - destruct (_fetch_polygon_data w "BTC" self) as [self1 t1] eqn:E1.
    destruct (_fetch_coingecko_data w "BTC" self1) as [self2 t2] eqn:E2.
    destruct (_collect_sentiment w self2) as [self3 t3] eqn:E3. simpl.
    split; [|split; [|split; [|split]]].
    + intros source status.
      rewrite !lookup_insert. repeat case_decide; try discriminate;
        intros [= <-]; apply health_of_cases.
    + rewrite lookup_insert_ne by discriminate. rewrite lookup_insert_eq. eauto.
    + rewrite lookup_insert_eq. eauto.
    + rewrite !lookup_insert_ne by discriminate. rewrite lookup_insert_eq.
      split; eauto.
    + intros ms Hhit. rewrite lookup_insert_eq.
      assert (Hhit2 : cached_if_fresh Sentiment "sentiment_global" 3600 (now w) self2
                      = Some ms).
      { unfold _fetch_polygon_data in E1. unfold _fetch_coingecko_data in E2.
        destruct (polygon w "BTC"); injection E1 as <- <-;
          destruct (coingecko w "BTC"); injection E2 as <- <-;
          repeat first [rewrite cached_if_fresh_increment
                       |rewrite cached_if_fresh_update_other by discriminate];
          exact Hhit. }
      unfold _collect_sentiment in E3. rewrite Hhit2 in E3.
      injection E3 as <- <-. reflexivity.
  - destruct (_fetch_coingecko_data w "BTC" self) as [self2 t2] eqn:E2.
    destruct (_collect_sentiment w self2) as [self3 t3] eqn:E3. simpl.
    split; [|split; [|split; [|split]]].
    + intros source status.
      rewrite !lookup_insert. repeat case_decide; try discriminate;
        intros [= <-]; apply health_of_cases.
    + rewrite lookup_insert_ne by discriminate. rewrite lookup_insert_eq. eauto.
    + rewrite lookup_insert_eq. eauto.
    + rewrite !lookup_insert_ne by discriminate. rewrite lookup_empty.
      split; [intros [? ?]; discriminate|discriminate].
    + intros ms Hhit. rewrite lookup_insert_eq.
      assert (Hhit2 : cached_if_fresh Sentiment "sentiment_global" 3600 (now w) self2
                      = Some ms).
      { unfold _fetch_coingecko_data in E2.
        destruct (coingecko w "BTC"); injection E2 as <- <-;
          repeat first [rewrite cached_if_fresh_increment
                       |rewrite cached_if_fresh_update_other by discriminate];
          exact Hhit. }
      unfold _collect_sentiment in E3. rewrite Hhit2 in E3.
      injection E3 as <- <-. reflexivity.
Qed.

End health.

Section health_quota.

Import CryptoDataPipeline.

Lemma collect_sentiment_other_limits (w : World) (self : CryptoDataPipeline.t)
    (service : string) :
  service <> "alternative"%string ->
  rate_limits (_collect_sentiment w self).1 !! service
  = rate_limits self !! service.
Proof.
  intros Hne. unfold _collect_sentiment.
  destruct (cached_if_fresh Sentiment _ 3600 (now w) self); [reflexivity|].
  destruct (alternative w); [|reflexivity]. simpl.
  unfold _increment_rate_limit. simpl.
  destruct (rate_limits self !! "alternative"%string); [|reflexivity].
  simpl. apply lookup_insert_ne. congruence.
Qed.

Lemma fetch_polygon_other_limits (w : World) (symbol : string)
    (self : CryptoDataPipeline.t) (service : string) :
  service <> "polygon"%string ->
  rate_limits (_fetch_polygon_data w symbol self).1 !! service
  = rate_limits self !! service.
Proof.
  intros Hne. unfold _fetch_polygon_data.
  destruct (polygon w symbol); [|reflexivity]. simpl.
  unfold _increment_rate_limit. simpl.
  destruct (rate_limits self !! "polygon"%string); [|reflexivity].
  simpl. apply lookup_insert_ne. congruence.
Qed.

(** X22: the probes of [health_check] do not consult the rate limiter: a
    CoinGecko probe that succeeds adds one to the CoinGecko counter even when
    the quota is already used up, and the table reported is the one the
    pipeline is left with. *)
Theorem health_probe_ignores_quota (w : World) (self : CryptoDataPipeline.t)
    (limit : RateLimit) (md : MarketData.t) :
  rate_limits self !! "coingecko"%string = Some limit ->
  (max limit <= calls limit)%Z ->
  coingecko w "BTC" = Some md ->
  _check_rate_limit "coingecko" self = false
  /\ health_sources (health_check w self).2 !! "coingecko"%string
     = Some "healthy"%string
  /\ rate_limits (health_check w self).1 !! "coingecko"%string
     = Some (mkRateLimit (calls limit + 1) (max limit) (window limit))
  /\ health_rate_limits (health_check w self).2
     = rate_limits (health_check w self).1.
Proof.
  intros Hl Hfull Hlive.
  split; [unfold _check_rate_limit; rewrite Hl; apply Z.ltb_ge; exact Hfull|].
  assert (Hstep : forall s, rate_limits s !! "coingecko"%string = Some limit ->
            (_fetch_coingecko_data w "BTC" s).2 = Some md
            /\ rate_limits (_fetch_coingecko_data w "BTC" s).1 !! "coingecko"%string
               = Some (mkRateLimit (calls limit + 1) (max limit) (window limit))).
  { intros s Hs. unfold _fetch_coingecko_data. rewrite Hlive. simpl.
    split; [reflexivity|]. unfold _increment_rate_limit. simpl. rewrite Hs.
    simpl. apply lookup_insert_eq. }
  unfold health_check.
  destruct (key_configured (polygon_key self)).
  - pose proof (fetch_polygon_other_limits w "BTC" self "coingecko"
                  ltac:(discriminate)) as Hp.
    destruct (_fetch_polygon_data w "BTC" self) as [self1 t1]. simpl in Hp.
    rewrite Hl in Hp. destruct (Hstep self1 Hp) as [Hr Hc].
    destruct (_fetch_coingecko_data w "BTC" self1) as [self2 t2].
    simpl in Hr, Hc. subst t2.
    pose proof (collect_sentiment_other_limits w self2 "coingecko"
                  ltac:(discriminate)) as Hs.
    destruct (_collect_sentiment w self2) as [self3 t3]. simpl in *.
    split; [|split; [congruence|reflexivity]].
    rewrite lookup_insert_ne by discriminate. apply lookup_insert_eq.
  - destruct (Hstep self Hl) as [Hr Hc].
    destruct (_fetch_coingecko_data w "BTC" self) as [self2 t2].
    simpl in Hr, Hc. subst t2.
    pose proof (collect_sentiment_other_limits w self2 "coingecko"
                  ltac:(discriminate)) as Hs.
    destruct (_collect_sentiment w self2) as [self3 t3]. simpl in *.
    split; [|split; [congruence|reflexivity]].
    rewrite lookup_insert_ne by discriminate. apply lookup_insert_eq.
Qed.

Lemma health_probe_ignores_quota_witness :
  _check_rate_limit "coingecko" (PipelineExamples.exhausted "coingecko") = false
  /\ health_sources
       (health_check PipelineExamples.news_flowing
          (PipelineExamples.exhausted "coingecko")).2 !! "coingecko"%string
     = Some "healthy"%string
  /\ rate_limits
       (health_check PipelineExamples.news_flowing
          (PipelineExamples.exhausted "coingecko")).1 !! "coingecko"%string
     = Some (mkRateLimit (10 + 1) 10 60)
  /\ health_rate_limits
       (health_check PipelineExamples.news_flowing
          (PipelineExamples.exhausted "coingecko")).2
     = rate_limits
         (health_check PipelineExamples.news_flowing
            (PipelineExamples.exhausted "coingecko")).1.
Proof.
  apply (health_probe_ignores_quota PipelineExamples.news_flowing
           (PipelineExamples.exhausted "coingecko") (mkRateLimit 10 10 60)
           PipelineExamples.btc_quote);
    [reflexivity|simpl; lia|reflexivity].
Defined.

End health_quota.

(** ** The keyword scorers *)

Section scorers.

Import CryptoDataPipeline.

Variable lower : string -> string.

Lemma count_in_length (words : list string) (text : string) :
  Py.count_in words text
  = Z.of_nat (length (filter (fun word => Py.contains word text = true) words)).
Proof.
  unfold Py.count_in.
  induction (filter (fun word => Py.contains word text = true) words)
    as [|word ws IH]; [reflexivity|].
  simpl map. rewrite sum_int_cons, IH. simpl length. lia.
Qed.

Lemma count_in_nonneg (words : list string) (text : string) :
  (0 <= Py.count_in words text)%Z.
Proof. rewrite count_in_length. lia. Qed.

Lemma count_in_zero (words : list string) (text : string) :
  Py.count_in words text = 0%Z <->
  forall word, word ∈ words -> Py.contains word text = false.
Proof.
  rewrite count_in_length. split.
  - intros Hzero word Hin.
    destruct (Py.contains word text) eqn:Hc; [|reflexivity].
    assert (Hf : word ∈ filter (fun word => Py.contains word text = true) words).
    { apply list_elem_of_filter. split; assumption. }
    destruct (filter _ words); [inversion Hf|simpl in Hzero; lia].
  - intros Hnone.
    destruct (filter (fun word => Py.contains word text = true) words)
      as [|word ws] eqn:Hf; [reflexivity|].
    assert (Hin : word ∈ filter (fun word => Py.contains word text = true) words).
    { rewrite Hf. apply list_elem_of_here. }
    apply list_elem_of_filter in Hin as [Hc Hin].
    rewrite (Hnone _ Hin) in Hc. discriminate.
Qed.

(** X23: the keyword sentiment score lies in the interval from -1 to 1
    for every text; it is 0 when the text contains no keyword, 1 when it
    contains positive keywords only and -1 when it contains negative
    keywords only. *)
Theorem sentiment_score_in_unit_range (text : string) :
  -1 <= _analyze_sentiment lower text <= 1
  /\ ((forall word, word ∈ positive_words ++ negative_words ->
         Py.contains word (lower text) = false) ->
      _analyze_sentiment lower text == 0)
  /\ ((exists word, word ∈ positive_words /\ Py.contains word (lower text) = true) ->
      (forall word, word ∈ negative_words -> Py.contains word (lower text) = false) ->
      _analyze_sentiment lower text == 1)
  /\ ((exists word, word ∈ negative_words /\ Py.contains word (lower text) = true) ->
      (forall word, word ∈ positive_words -> Py.contains word (lower text) = false) ->
      _analyze_sentiment lower text == -1).
Proof.
  unfold _analyze_sentiment.
  pose proof (count_in_nonneg positive_words (lower text)) as Hp.
  pose proof (count_in_nonneg negative_words (lower text)) as Hn.
  pose proof (count_in_zero positive_words (lower text)) as Zp.
  pose proof (count_in_zero negative_words (lower text)) as Zn.
  set (p := Py.count_in positive_words (lower text)) in *.
  set (n := Py.count_in negative_words (lower text)) in *.
  assert (Hratio : (0 < p + n)%Z ->
            -1 <= inject_Z (p - n) / inject_Z (p + n) <= 1).
  { intros Hpos.
    assert (Hden : 0 < inject_Z (p + n)).
    { change 0 with (inject_Z 0). rewrite <- Zlt_Qlt. exact Hpos. }
    split.
    - apply Qle_shift_div_l; [exact Hden|].
      change (-1) with (inject_Z (-1)).
      rewrite <- inject_Z_mult, <- Zle_Qle. lia.
    - apply Qle_shift_div_r; [exact Hden|].
      rewrite Qmult_1_l, <- Zle_Qle. lia. }
  split; [|split; [|split]].
  - destruct (Z.eqb_spec (p + n) 0) as [Hz|Hnz]; [split; discriminate|].
    apply Hratio. lia.
  - intros Hnone.
    assert (p = 0%Z) as ->.
    { apply Zp. intros word Hin. apply Hnone. apply elem_of_app. left. exact Hin. }
    assert (n = 0%Z) as ->.
    { apply Zn. intros word Hin. apply Hnone. apply elem_of_app. right. exact Hin. }
    reflexivity.
  - intros (word & Hin & Hc) Hneg.
    assert (n = 0%Z) as -> by (apply Zn; exact Hneg).
    assert (p <> 0%Z) as Hpne.
    { intros Hz. rewrite (proj1 Zp Hz word Hin) in Hc. discriminate. }
    rewrite Z.add_0_r, Z.sub_0_r.
    destruct (Z.eqb_spec p 0) as [|_]; [contradiction|].
    field. intros Hq. apply Hpne. change 0 with (inject_Z 0) in Hq.
    apply inject_Z_injective. exact Hq.
  - intros (word & Hin & Hc) Hposi.
    assert (p = 0%Z) as -> by (apply Zp; exact Hposi).
    assert (n <> 0%Z) as Hnne.
    { intros Hz. rewrite (proj1 Zn Hz word Hin) in Hc. discriminate. }
    rewrite Z.add_0_l, Z.sub_0_l.
    destruct (Z.eqb_spec n 0) as [|_]; [contradiction|].
    rewrite inject_Z_opp. field. intros Hq. apply Hnne.
    change 0 with (inject_Z 0) in Hq. apply inject_Z_injective. exact Hq.
Qed.

Lemma _assess_impact_cases (headline : string) :
  _assess_impact lower headline = "high"%string
  \/ _assess_impact lower headline = "medium"%string
  \/ _assess_impact lower headline = "low"%string.
Proof.
  unfold _assess_impact.
  destruct (Py.any_in high_impact_words (lower headline)); [left; reflexivity|].
  destruct (Py.any_in medium_impact_words (lower headline)); auto.
Qed.

(** X24: the impact classifier answers "high", "medium" or "low" and
    never "critical"; so for news whose impact levels come from it,
    [calculate_combined_signal] adds no critical-news warning, and it rates
    an item STRONG_BUY or STRONG_SELL only when the classifier said
    "high". *)
Theorem impact_is_never_critical (self : CombinedSignal.t) :
  (forall item, item ∈ CombinedSignal.news_items self ->
     NewsItem.impact_level item
     = _assess_impact lower (NewsItem.headline item)) ->
  (forall headline, _assess_impact lower headline <> "critical"%string)
  /\ (forall item, item ∈ CombinedSignal.news_items self ->
        NewsItem.get_signal_from_sentiment item = STRONG_BUY
        \/ NewsItem.get_signal_from_sentiment item = STRONG_SELL ->
        NewsItem.impact_level item = "high"%string)
  /\ exists self',
       CombinedSignal.calculate_combined_signal self = Py.Ok self'
       /\ forall headline,
            Critical_news headline ∈ CombinedSignal.warnings self' ->
            Critical_news headline ∈ CombinedSignal.warnings self.
Proof.
  intros Himpact.
  assert (Hnever : forall headline, _assess_impact lower headline <> "critical"%string).
  { intros headline.
    destruct (_assess_impact_cases headline) as [-> | [-> | ->]]; discriminate. }
  split; [exact Hnever|]. split.
  - intros item Hin. rewrite (Himpact _ Hin).
    unfold NewsItem.get_signal_from_sentiment. rewrite (Himpact _ Hin).
    destruct (_assess_impact_cases (NewsItem.headline item)) as [-> | [-> | ->]];
      [reflexivity| |]; simpl; rewrite ?andb_false_r;
      split_comparisons; intros [?|?]; discriminate.
  - destruct (calculate_combined_signal_notes self)
      as (self' & Hrun & _ & W & _).
    exists self'. split; [exact Hrun|].
    assert (Hnone : critical_news_warning self = []).
    { unfold critical_news_warning, CombinedSignal.critical_news.
      destruct (filter _ (CombinedSignal.news_items self)) as [|n ns] eqn:Hf;
        [reflexivity|].
      assert (Hin : n ∈ filter (fun n => NewsItem.impact_level n = "critical"%string)
                          (CombinedSignal.news_items self)).
      { rewrite Hf. apply list_elem_of_here. }
      apply list_elem_of_filter in Hin as [Hcrit Hin].
      rewrite (Himpact _ Hin) in Hcrit. destruct (Hnever _ Hcrit). }
    intros headline. rewrite W, Hnone, app_nil_r.
    rewrite elem_of_app. intros [Hold|Hnew]; [exact Hold|].
    unfold volatility_warning in Hnew.
    destruct (CombinedSignal.market_data self) as [md|]; [|inversion Hnew].
    destruct (Py.Qltb 10 (Qabs (MarketData.change_24h md))); [|inversion Hnew].
    apply list_elem_of_singleton in Hnew. discriminate.
Qed.

End scorers.

Section scorer_examples.

Import CryptoDataPipeline.

Lemma impact_is_never_critical_witness :
  (forall headline,
     _assess_impact Examples.ascii_lower headline <> "critical"%string)
  /\ (forall item,
        item ∈ CombinedSignal.news_items Examples.classified_news ->
        NewsItem.get_signal_from_sentiment item = STRONG_BUY
        \/ NewsItem.get_signal_from_sentiment item = STRONG_SELL ->
        NewsItem.impact_level item = "high"%string)
  /\ exists self',
       CombinedSignal.calculate_combined_signal Examples.classified_news
       = Py.Ok self'
       /\ forall headline,
            Critical_news headline ∈ CombinedSignal.warnings self' ->
            Critical_news headline
            ∈ CombinedSignal.warnings Examples.classified_news.
Proof.
  apply (impact_is_never_critical Examples.ascii_lower Examples.classified_news).
  intros item Hin. apply list_elem_of_singleton in Hin. subst item.
  reflexivity.
Defined.

(** The scorers on a headline. *)
Example scorers_on_a_headline :
  _analyze_sentiment Examples.ascii_lower "Bitcoin ETF rally lifts market" == 1
  /\ _analyze_sentiment Examples.ascii_lower "Exchange hack: prices crash and drop" == -1
  /\ _analyze_sentiment Examples.ascii_lower "Bitcoin holds steady" == 0
  /\ _assess_impact Examples.ascii_lower "Bitcoin ETF rally lifts market" = "high"%string
  /\ _assess_impact Examples.ascii_lower "New partnership announced" = "medium"%string
  /\ _assess_impact Examples.ascii_lower "Bitcoin holds steady" = "low"%string.
Proof. repeat split. Qed.

End scorer_examples.

(** ** The adapters and the batch *)

Section adapters.

Import CryptoDataPipeline.


End adapters.

Section batch_coverage.

Import CryptoDataPipeline.



Lemma mock_technical_contribution (w : World) (symbol : string) (timestamp : Z)
    (md : option MarketData.t) (items : list NewsItem.t)
    (ms : option MarketSentiment.t) :
  Fusion.contribution
    (CombinedSignal.init symbol timestamp md items ms (_calculate_technicals w symbol))
    Fusion.Technical
  = Some (Fusion.mean_ordinal [3%Z]).
Proof. destruct md; reflexivity. Qed.

(** X27: every signal the pipeline produces has the technical component
    present at NEUTRAL, from the mock indicators of
    [_calculate_technicals]; so when market data, news and sentiment are all
    absent the result is not the default of an empty signal but NEUTRAL with
    confidence 1 and risk level "low". *)
Theorem pipeline_signal_without_live_data (world : string -> World)
    (symbol : string) (self : CryptoDataPipeline.t) :
  exists combined,
    (process_symbol world symbol self).2 = Py.Ok combined
    /\ CombinedSignal.symbol combined = symbol
    /\ Fusion.contribution combined Fusion.Technical
       = Some (Fusion.mean_ordinal [3%Z])
    /\ CombinedSignal.technical_signal combined = NEUTRAL
    /\ (CombinedSignal.market_data combined = None ->
        CombinedSignal.news_items combined = [] ->
        CombinedSignal.sentiment combined = None ->
        CombinedSignal.overall_signal combined = NEUTRAL
        /\ CombinedSignal.confidence combined == 1
        /\ CombinedSignal.risk_level combined = "low"%string).
Proof.
  unfold process_symbol.
  destruct (_collect_market_data (world symbol) symbol self) as [self1 md].
  destruct (_collect_news (world symbol) symbol self1) as [self2 items].
  destruct (_collect_sentiment (world symbol) self2) as [self3 ms].
  set (c0 := CombinedSignal.init symbol (now (world symbol)) md items ms
               (_calculate_technicals (world symbol) symbol)).
  pose proof (mock_technical_contribution (world symbol) symbol
                (now (world symbol)) md items ms) as Htech.
  fold c0 in Htech.
  destruct (calculate_combined_signal_spec c0)
    as (combined & Hrun & Hin & Hcomp & _).
  exists combined. split; [exact Hrun|].
  pose proof Hin as (Hsym & _ & Hmd & Hnews & Hsent & _).
  split; [symmetry; exact Hsym|].
  split; [rewrite <- (contribution_same_inputs _ _ _ Hin); exact Htech|].
  split.
  - pose proof (Hcomp Fusion.Technical) as Ht. rewrite Htech in Ht.
    simpl in Ht. injection Ht as <-. reflexivity.
  - intros Hmd0 Hnews0 Hsent0.
    rewrite <- Hmd in Hmd0. rewrite <- Hnews in Hnews0. rewrite <- Hsent in Hsent0.
    simpl in Hmd0, Hnews0, Hsent0. subst md items ms.
    destruct (agreement_scores c0 3) as (combined' & Hrun' & Hov & Hconf & Hrisk).
    + vm_compute. discriminate.
    + intros [] o; vm_compute; intros [= <-]; reflexivity.
    + rewrite Hrun in Hrun'. injection Hrun' as <-.
      split; [|split; assumption].
      apply value_inj. rewrite Hov. reflexivity.
Qed.

End batch_coverage.
